(** * Evaluation and diagnostics pipeline of the NL-to-SQL project

    A shallow embedding of the Python sources
      - [find_mismatches.py]  (the mismatch / diagnostics reporter),
      - [evaluate_test2.py]   (the test2 evaluator and its gold-record cache),
      - [load_data.py]        (dataset, collation and data loader),
    followed by the properties the specification states about them.

    Python values are modelled as the code uses them: lists as [list],
    [None]-or-a-value as [option], a [set] as a [gset], the file system as
    a [gmap] from paths to files, and a run of [main] as a computation in a
    state-and-exception monad whose state collects what was printed and
    written. *)

From Stdlib Require Import QArith.
From Stdlib Require Import Ascii String.
From stdpp Require Import gmap strings list pretty.


(** ** Scalars, rows and record sets *)

(** A scalar returned by the database driver. REAL columns are left out:
    Python compares floats by floating-point equality. *)
Inductive value :=
| VNull
| VInt (z : Z)
| VText (s : string).

#[global] Instance value_eq_dec : EqDecision value.
Proof. solve_decision. Defined.

Definition value_enc (v : value) : unit + (Z + string) :=
  match v with
  | VNull => inl tt
  | VInt z => inr (inl z)
  | VText s => inr (inr s)
  end.

Definition value_dec (x : unit + (Z + string)) : value :=
  match x with
  | inl _ => VNull
  | inr (inl z) => VInt z
  | inr (inr s) => VText s
  end.

#[global] Instance value_countable : Countable value.
Proof. apply (inj_countable' value_enc value_dec). by intros []. Defined.

(** A row as fetched (a tuple or a list of scalars, in column order). *)
Definition row := list value.

(** [tuple(row)]: the same scalars in the same order. *)
Definition tuple (r : row) : list value := r.

(** The records of one query: a list of rows, or [None]. *)
Definition records := option (list row).

(** Truthiness of a list-or-None: [if xs:]. *)
Definition truthy {A} (xs : option (list A)) : bool :=
  match xs with
  | Some (_ :: _) => true
  | _ => false
  end.

(** [set(tuple(row) for row in rec) if rec else set()]
    (find_mismatches.py, lines 134-135). *)
Definition rec_set (rec : records) : gset (list value) :=
  if truthy rec
  then match rec with
       | Some rows => list_to_set (tuple <$> rows)
       | None => ∅
       end
  else ∅.

(** [gold_rec_set != pred_rec_set] (line 137). *)
Definition records_differ (gold_rec pred_rec : records) : bool :=
  bool_decide (rec_set gold_rec ≠ rec_set pred_rec).

(** The Record Comparator: the two record sets are reported equal. *)
Definition compare (a b : records) : bool := negb (records_differ a b).

(** The comparison as the specification words it: each record set is the
    set of its row-tuples, with [None] standing for the empty set. *)
Definition spec_row_set (rec : records) : gset (list value) :=
  match rec with
  | None => ∅
  | Some rows => list_to_set (tuple <$> rows)
  end.

(** The rows of a record set, none for [None]. *)
Definition rows_of (rec : records) : list row := default [] rec.

(** [rearranged a a'] : [a'] is obtained from [a] by permuting rows and
    repeating rows that are already present. *)
Inductive rearranged : list row → list row → Prop :=
| rearr_perm a a' : a ≡ₚ a' → rearranged a a'
| rearr_dup r a : r ∈ a → rearranged a (r :: a)
| rearr_trans a b c : rearranged a b → rearranged b c → rearranged a c.

(** ** Python strings *)

(** ["\n"] *)
Definition NL : string := String (Ascii.ascii_of_nat 10) EmptyString.

(** [s * n] *)
Fixpoint str_repeat (s : string) (n : nat) : string :=
  match n with
  | O => ""
  | S n' => s +:+ str_repeat s n'
  end.

(** The characters [str.strip()] removes, on ASCII text: TAB, LF, VT, FF,
    CR, the separators 0x1C-0x1F and the space. (Text outside ASCII is not
    covered: its whitespace is multi-byte.) *)
Definition is_space (c : ascii) : bool :=
  let n := Ascii.nat_of_ascii c in
  ((9 <=? n)%nat && (n <=? 13)%nat) || ((28 <=? n)%nat && (n <=? 31)%nat) || (n =? 32)%nat.

Fixpoint lstrip (s : string) : string :=
  match s with
  | EmptyString => EmptyString
  | String c s' => if is_space c then lstrip s' else s
  end.

Definition rstrip (s : string) : string := String.rev (lstrip (String.rev s)).

(** [s.strip()] *)
Definition strip (s : string) : string := rstrip (lstrip s).

(** Truthiness of a string: [if s:]. *)
Definition str_truthy (s : string) : bool :=
  match s with
  | EmptyString => false
  | String _ _ => true
  end.

(** All characters of [s] are whitespace. *)
Fixpoint all_space (s : string) : bool :=
  match s with
  | EmptyString => true
  | String c s' => is_space c && all_space s'
  end.

(** ** Exceptions, and computations that print and write *)

Inductive exn :=
| AssertionError (msg : string)
| ZeroDivisionError
| FileNotFoundError (path : string)
| IndexError
| ValueError (msg : string)
| TypeError
| UnicodeDecodeError
| UnpicklingError
| IsADirectoryError (path : string)
| NotADirectoryError (path : string)
| FileExistsError (path : string)
| RuntimeError (msg : string).

(** The outcome of a call: a value, or an exception raised. *)
Inductive result (A : Type) :=
| Ok (a : A)
| Raise (e : exn).
Arguments Ok {A} a.
Arguments Raise {A} e.

(** [M S A]: a computation over a state [S] that returns an [A] or raises;
    the state reached when the exception is raised is kept. *)
Definition M (S A : Type) : Type := S → S * (result A).

Definition ret {S A} (a : A) : M S A := λ s, (s, Ok a).

Definition raise {S A} (e : exn) : M S A := λ s, (s, Raise e).

Definition bind {S A B} (m : M S A) (k : A → M S B) : M S B :=
  λ s, match m s with
       | (s', Ok a) => k a s'
       | (s', Raise e) => (s', Raise e)
       end.

(** A computation that only returns or raises. *)
Definition lift {S A} (r : result A) : M S A := λ s, (s, r).

#[global] Instance M_ret {S} : MRet (M S) := λ A, ret.
#[global] Instance M_bind {S} : MBind (M S) := λ A B k m, bind m k.

(** The same for computations without state. *)
Definition ebind {A B} (r : result A) (k : A → result B) : result B :=
  match r with
  | Ok a => k a
  | Raise e => Raise e
  end.

#[global] Instance result_ret : MRet result := λ A, Ok.
#[global] Instance result_bind : MBind result := λ A B k r, ebind r k.

Fixpoint for_each {S A} (xs : list A) (body : A → M S unit) : M S unit :=
  match xs with
  | [] => ret tt
  | x :: xs' => body x;; for_each xs' body
  end.

(** [assert cond, msg] *)
Definition assert {S} (cond : bool) (msg : string) : M S unit :=
  if cond then ret tt else raise (AssertionError msg).

Definition when {S} (cond : bool) (m : M S unit) : M S unit :=
  if cond then m else ret tt.

(** ** Files *)

(** A file is text, read by lines, a pickled pair of per-query records and
    per-query error messages, a model checkpoint, or a directory with the
    names of its entries. *)
Inductive file :=
| TextFile (lines : list string)
| PickleFile (recs : list records) (errs : list string)
| Checkpoint
| Directory (entries : list string).

(** [os.path.exists(path)] *)
Definition path_exists (fs : gmap string file) (path : string) : bool :=
  bool_decide (is_Some (fs !! path)).

(** [os.path.isdir(path)] *)
Definition isdir (fs : gmap string file) (path : string) : bool :=
  match fs !! path with
  | Some (Directory _) => true
  | _ => false
  end.

(** [os.listdir(path)] *)
Definition listdir (fs : gmap string file) (path : string) : result (list string) :=
  match fs !! path with
  | Some (Directory entries) => Ok entries
  | Some _ => Raise (NotADirectoryError path)
  | None => Raise (FileNotFoundError path)
  end.

(** [os.makedirs(path, exist_ok=True)] for a path of one component. *)
Definition makedirs (fs : gmap string file) (path : string)
  : result (gmap string file) :=
  match fs !! path with
  | None => Ok (<[path := Directory []]> fs)
  | Some (Directory _) => Ok fs
  | Some _ => Raise (FileExistsError path)
  end.

(** [open(path, 'r').readlines()] *)
Definition readlines (fs : gmap string file) (path : string) : result (list string) :=
  match fs !! path with
  | Some (TextFile ls) => Ok ls
  | Some (Directory _) => Raise (IsADirectoryError path)
  | Some _ => Raise UnicodeDecodeError
  | None => Raise (FileNotFoundError path)
  end.

(** [pickle.load(open(path, 'rb'))] *)
Definition pickle_load (fs : gmap string file) (path : string)
  : result (list records * list string) :=
  match fs !! path with
  | Some (PickleFile recs errs) => Ok (recs, errs)
  | Some (Directory _) => Raise (IsADirectoryError path)
  | Some _ => Raise UnpicklingError
  | None => Raise (FileNotFoundError path)
  end.

(** [os.path.join(a, b)] *)
Definition ends_with_slash (s : string) : bool :=
  match String.rev s with
  | String c _ => bool_decide (c = "/"%char)
  | EmptyString => false
  end.

Definition path_join (a b : string) : string :=
  match b with
  | String c _ =>
      if bool_decide (c = "/"%char) then b
      else if str_truthy a && negb (ends_with_slash a) then a +:+ "/" +:+ b
      else a +:+ b
  | EmptyString =>
      if str_truthy a && negb (ends_with_slash a) then a +:+ "/" else a
  end.

(** ** Printed and written text *)

(** An f-string is kept as its pieces: literal text, [str(row)] of a row,
    a percentage [num / den * 100] formatted with [:.2f], a number [q]
    formatted with [places] decimals, and a piece left-justified in a field
    of [width] characters. *)
Inductive piece :=
| Str (s : string)
| Row (r : row)
| Pct (num den : nat)
| Dec (q : Q) (places : nat)
| Ljust (width : nat) (p : piece).

Definition text := list piece.

(** [num / den * 100], which raises when [den] is zero. *)
Definition pct (num den : nat) : result piece :=
  if (den =? 0)%nat then Raise ZeroDivisionError else Ok (Pct num den).

(** What a run leaves behind: the lines printed, in order, and the files
    written, each as the chunks passed to [f.write]. *)
Record output := {
  stdout : list text;
  written : gmap string (list text)
}.

Definition no_output : output := {| stdout := []; written := ∅ |}.

(** [print(t)] *)
Definition print (t : text) : M output unit :=
  λ o, ({| stdout := stdout o ++ [t]; written := written o |}, Ok tt).

(** [open(path, 'w')]: the file is created empty or truncated. *)
Definition open_w (path : string) : M output unit :=
  λ o, ({| stdout := stdout o; written := <[path := []]> (written o) |}, Ok tt).

(** [f.write(t)] on the file opened at [path]. *)
Definition fwrite (path : string) (t : text) : M output unit :=
  λ o, ({| stdout := stdout o;
           written := <[path := default [] (written o !! path) ++ [t]]> (written o) |},
        Ok tt).

(** * find_mismatches.py *)

Module FindMismatches.

Record args := {
  experiment_name : string;
  finetune : bool;
  model_type : option string
}.

(** One entry of [mismatches]:
    [(i, nl, gold_sql_str, pred_sql_str, gold_rec, pred_rec)]. *)
Record mismatch := {
  m_index : nat;
  m_nl : string;
  m_gold : string;
  m_pred : string;
  m_gold_rec : records;
  m_pred_rec : records
}.

(** One entry of [error_queries]: [(i, nl, gold, pred, error_msg)]. *)
Record error_query := {
  e_index : nat;
  e_nl : string;
  e_gold : string;
  e_pred : string;
  e_msg : string
}.

(** The list behind a list-or-None. *)
Definition items {A} (xs : option (list A)) : list A := default [] xs.

(** [error_msg and error_msg.strip()] (lines 130 and 150). *)
Definition is_error_msg (error_msg : string) : bool :=
  str_truthy error_msg && str_truthy (strip error_msg).

(** [error_msgs and error_msgs[i] and error_msgs[i].strip()] (line 130). *)
Definition skip_index (error_msgs : option (list string)) (i : nat) : result bool :=
  if truthy error_msgs then
    match items error_msgs !! i with
    | Some error_msg => Ok (is_error_msg error_msg)
    | None => Raise IndexError
    end
  else Ok false.

(** The loop of lines 125-138 over the zipped sequences, from index [i]. *)
Fixpoint record_mismatches_from (error_msgs : option (list string)) (i : nat)
    (zipped : list (string * string * string * records * records))
  : result (list mismatch) :=
  match zipped with
  | [] => Ok []
  | (nl, gold_sql_str, pred_sql_str, gold_rec, pred_rec) :: rest =>
      skip ← skip_index error_msgs i;
      more ← record_mismatches_from error_msgs (S i) rest;
      if (skip : bool) then mret more
      else if records_differ gold_rec pred_rec
           then mret ({| m_index := i; m_nl := nl; m_gold := gold_sql_str;
                         m_pred := pred_sql_str; m_gold_rec := gold_rec;
                         m_pred_rec := pred_rec |} :: more)
           else mret more
  end.

Definition zip5 {A B C D E} (a : list A) (b : list B) (c : list C)
    (d : list D) (e : list E) : list (A * B * C * D * E) :=
  zip (zip (zip (zip a b) c) d) e.

Definition record_mismatches (nl_queries gold_sql model_sql : list string)
    (gold_records model_records : list records)
    (error_msgs : option (list string)) : result (list mismatch) :=
  record_mismatches_from error_msgs 0
    (zip5 nl_queries gold_sql model_sql gold_records model_records).

(** The fallback loop of lines 142-144. *)
Fixpoint sql_mismatches_from (i : nat) (zipped : list (string * string * string))
  : list mismatch :=
  match zipped with
  | [] => []
  | (nl, gold, pred) :: rest =>
      if bool_decide (strip gold ≠ strip pred)
      then {| m_index := i; m_nl := nl; m_gold := gold; m_pred := pred;
              m_gold_rec := None; m_pred_rec := None |}
           :: sql_mismatches_from (S i) rest
      else sql_mismatches_from (S i) rest
  end.

Definition sql_mismatches (nl_queries gold_sql model_sql : list string)
  : list mismatch :=
  sql_mismatches_from 0 (zip (zip nl_queries gold_sql) model_sql).

(** The loop of lines 149-151. *)
Fixpoint error_queries_from (i : nat)
    (zipped : list (string * string * string * string)) : list error_query :=
  match zipped with
  | [] => []
  | (nl, gold, pred, error_msg) :: rest =>
      if is_error_msg error_msg
      then {| e_index := i; e_nl := nl; e_gold := gold; e_pred := pred;
              e_msg := error_msg |} :: error_queries_from (S i) rest
      else error_queries_from (S i) rest
  end.

Definition find_error_queries (nl_queries gold_sql model_sql : list string)
    (error_msgs : option (list string)) : list error_query :=
  if truthy error_msgs
  then error_queries_from 0
         (zip (zip (zip nl_queries gold_sql) model_sql) (items error_msgs))
  else [].

(** Lines 106-119. *)
Definition verify_lengths (nl_queries gold_sql model_sql : list string)
    (gold_records model_records : option (list records))
    (error_msgs : option (list string)) : M output unit :=
  assert ((length nl_queries =? length gold_sql)%nat
          && (length gold_sql =? length model_sql)%nat)
    ("Mismatch: NL=" +:+ pretty (length nl_queries) +:+ ", Gold="
     +:+ pretty (length gold_sql) +:+ ", Model=" +:+ pretty (length model_sql));;
  when (truthy gold_records)
    (assert (length (items gold_records) =? length nl_queries)%nat
       ("Mismatch: Gold records=" +:+ pretty (length (items gold_records))
        +:+ ", NL queries=" +:+ pretty (length nl_queries)));;
  when (truthy model_records)
    (assert (length (items model_records) =? length model_sql)%nat
       ("Mismatch: Model records=" +:+ pretty (length (items model_records))
        +:+ ", Model SQL=" +:+ pretty (length model_sql)));;
  when (truthy error_msgs)
    (assert (length (items error_msgs) =? length model_sql)%nat
       ("Mismatch: Error messages=" +:+ pretty (length (items error_msgs))
        +:+ ", Model SQL=" +:+ pretty (length model_sql))).

(** [enumerate(xs, start)] *)
Definition enumerate {A} (start : nat) (xs : list A) : list (nat * A) :=
  zip (seq start (length xs)) xs.

(** [len(rec) if rec else 0] *)
Definition row_count (rec : records) : nat :=
  if truthy rec then length (items rec) else 0.

(** The preview of one side's records (lines 204-211, 212-219, 285-292 and
    293-300): a title with the row count, the first [bound] rows and, when
    there are more, how many were left out. [eol] is the line end the
    caller writes: ["\n"] in the file, nothing on the console, where
    [print] supplies it. *)
Definition records_preview (title : string) (bound : nat) (eol : string)
    (rec : records) : list text :=
  [[Str (NL +:+ title +:+ " (" +:+ pretty (row_count rec) +:+ " rows):" +:+ eol)]]
  ++ (if truthy rec
      then ((λ r, [Str "  "; Row r; Str eol]) <$> take bound (items rec))
           ++ (if (bound <? length (items rec))%nat
               then [[Str ("  ... (" +:+ pretty (length (items rec) - bound)
                           +:+ " more rows)" +:+ eol)]]
               else [])
      else [[Str ("  (empty)" +:+ eol)]]).

Definition rule (c : string) : string := str_repeat c 80.

(** Lines 153-162. *)
Definition print_totals (record_mode : bool) (n : nat)
    (mismatches : list mismatch) (error_msgs : option (list string))
    (error_queries : list error_query) : M output unit :=
  print [Str ("Total queries: " +:+ pretty n)];;
  (if record_mode then
     print [Str ("Queries with record mismatches (different results): "
                 +:+ pretty (length mismatches))];;
     rate ← lift (pct (n - length mismatches) n);
     print [Str "Record match rate: "; rate; Str "%"]
   else
     print [Str ("Queries with SQL mismatches: " +:+ pretty (length mismatches))];;
     rate ← lift (pct (n - length mismatches) n);
     print [Str "SQL match rate: "; rate; Str "%"]);;
  when (truthy error_msgs)
    (print [Str ("Queries with SQL errors: " +:+ pretty (length error_queries))];;
     rate ← lift (pct (length error_queries) n);
     print [Str "SQL error rate: "; rate; Str "%"]).

(** The header of the mismatch report (lines 176-196). *)
Definition write_mismatch_header (path : string) (record_mode : bool)
    (a : args) (mtype : string) (n : nat) (mismatches : list mismatch)
  : M output unit :=
  fwrite path [Str (rule "=" +:+ NL)];;
  (if record_mode then
     fwrite path [Str ("RECORD MISMATCHES - Experiment: " +:+ experiment_name a +:+ NL)];;
     fwrite path [Str ("Model Type: " +:+ mtype +:+ NL)];;
     fwrite path [Str (rule "=" +:+ NL +:+ NL)];;
     fwrite path [Str ("Total queries: " +:+ pretty n +:+ NL)];;
     fwrite path [Str ("Queries with record mismatches (different results): "
                       +:+ pretty (length mismatches) +:+ NL)];;
     rate ← lift (pct (n - length mismatches) n);
     fwrite path [Str "Record match rate: "; rate; Str ("%" +:+ NL)];;
     fwrite path [Str (NL +:+ rule "=" +:+ NL)];;
     fwrite path [Str ("ALL RECORD MISMATCHES (Different fetched results)" +:+ NL)];;
     fwrite path [Str (rule "=" +:+ NL +:+ NL)]
   else
     fwrite path [Str ("SQL MISMATCHES - Experiment: " +:+ experiment_name a +:+ NL)];;
     fwrite path [Str ("Model Type: " +:+ mtype +:+ NL)];;
     fwrite path [Str (rule "=" +:+ NL +:+ NL)];;
     fwrite path [Str ("Total queries: " +:+ pretty n +:+ NL)];;
     fwrite path [Str ("Queries with SQL mismatches: "
                       +:+ pretty (length mismatches) +:+ NL)];;
     rate ← lift (pct (n - length mismatches) n);
     fwrite path [Str "SQL match rate: "; rate; Str ("%" +:+ NL)];;
     fwrite path [Str (NL +:+ rule "=" +:+ NL)];;
     fwrite path [Str ("ALL SQL MISMATCHES (Predicted SQL != Gold SQL)" +:+ NL)];;
     fwrite path [Str (rule "=" +:+ NL +:+ NL)]).

(** What is written for one mismatch (lines 199-220). *)
Definition mismatch_entry_chunks (record_mode : bool) (idx : nat) (m : mismatch)
  : list text :=
  [ [Str ("Example " +:+ pretty idx +:+ " (Index " +:+ pretty (m_index m) +:+ "):" +:+ NL)];
    [Str ("NL Query: " +:+ m_nl m +:+ NL)];
    [Str (NL +:+ "Gold SQL:" +:+ NL +:+ m_gold m +:+ NL)];
    [Str (NL +:+ "Predicted SQL:" +:+ NL +:+ m_pred m +:+ NL)] ]
  ++ (if record_mode
      then records_preview "Gold Records" 10 NL (m_gold_rec m)
           ++ records_preview "Predicted Records" 10 NL (m_pred_rec m)
      else [])
  ++ [ [Str (NL +:+ rule "-" +:+ NL +:+ NL)] ].

(** What is printed for one mismatch (lines 278-301). *)
Definition mismatch_entry_lines (record_mode : bool) (idx : nat) (m : mismatch)
  : list text :=
  [ [Str ("Example " +:+ pretty idx +:+ " (Index " +:+ pretty (m_index m) +:+ "):")];
    [Str ("NL Query: " +:+ m_nl m)];
    [Str (NL +:+ "Gold SQL:")];
    [Str (m_gold m)];
    [Str (NL +:+ "Predicted SQL:")];
    [Str (m_pred m)] ]
  ++ (if record_mode
      then records_preview "Gold Records" 5 "" (m_gold_rec m)
           ++ records_preview "Predicted Records" 5 "" (m_pred_rec m)
      else [])
  ++ [ [Str (NL +:+ rule "-" +:+ NL)] ].

(** Lines 174-225. *)
Definition save_mismatches (path : string) (record_mode : bool) (a : args)
    (mtype : string) (n : nat) (mismatches : list mismatch) : M output unit :=
  print [Str (NL +:+ "Saving record mismatches to: " +:+ path)];;
  open_w path;;
  write_mismatch_header path record_mode a mtype n mismatches;;
  for_each (enumerate 1 mismatches)
    (λ '(idx, m), for_each (mismatch_entry_chunks record_mode idx m) (fwrite path));;
  (if record_mode
   then print [Str ("✓ Saved " +:+ pretty (length mismatches)
                    +:+ " record mismatches to " +:+ path)]
   else print [Str ("✓ Saved " +:+ pretty (length mismatches)
                    +:+ " SQL mismatches to " +:+ path)]).

(** Lines 228-250. *)
Definition save_errors (path : string) (a : args) (mtype : string) (n : nat)
    (error_queries : list error_query) : M output unit :=
  print [Str (NL +:+ "Saving SQL errors to: " +:+ path)];;
  open_w path;;
  fwrite path [Str (rule "=" +:+ NL)];;
  fwrite path [Str ("SQL ERRORS - Experiment: " +:+ experiment_name a +:+ NL)];;
  fwrite path [Str ("Model Type: " +:+ mtype +:+ NL)];;
  fwrite path [Str (rule "=" +:+ NL +:+ NL)];;
  fwrite path [Str ("Total queries: " +:+ pretty n +:+ NL)];;
  fwrite path [Str ("Queries with SQL errors: " +:+ pretty (length error_queries) +:+ NL)];;
  rate ← lift (pct (length error_queries) n);
  fwrite path [Str "SQL error rate: "; rate; Str ("%" +:+ NL)];;
  fwrite path [Str (NL +:+ rule "=" +:+ NL)];;
  fwrite path [Str ("ALL QUERIES WITH SQL ERRORS (Failed to execute)" +:+ NL)];;
  fwrite path [Str (rule "=" +:+ NL +:+ NL)];;
  for_each (enumerate 1 error_queries)
    (λ '(idx, e),
       fwrite path [Str ("Example " +:+ pretty idx +:+ " (Index "
                         +:+ pretty (e_index e) +:+ "):" +:+ NL)];;
       fwrite path [Str ("NL Query: " +:+ e_nl e +:+ NL)];;
       fwrite path [Str (NL +:+ "Gold SQL:" +:+ NL +:+ e_gold e +:+ NL)];;
       fwrite path [Str (NL +:+ "Predicted SQL:" +:+ NL +:+ e_pred e +:+ NL)];;
       fwrite path [Str (NL +:+ "Error Message:" +:+ NL +:+ e_msg e +:+ NL)];;
       fwrite path [Str (NL +:+ rule "-" +:+ NL +:+ NL)]);;
  print [Str ("✓ Saved " +:+ pretty (length error_queries)
              +:+ " queries with SQL errors to " +:+ path)].

(** Lines 253-267. *)
Definition print_errors (error_queries : list error_query) : M output unit :=
  print [Str (NL +:+ rule "=")];;
  print [Str ("ALL " +:+ pretty (length error_queries) +:+ " QUERIES WITH SQL ERRORS")];;
  print [Str (rule "=" +:+ NL)];;
  for_each (enumerate 1 error_queries)
    (λ '(idx, e),
       print [Str ("Example " +:+ pretty idx +:+ " (Index "
                   +:+ pretty (e_index e) +:+ "):")];;
       print [Str ("NL Query: " +:+ e_nl e)];;
       print [Str (NL +:+ "Gold SQL:")];;
       print [Str (e_gold e)];;
       print [Str (NL +:+ "Predicted SQL:")];;
       print [Str (e_pred e)];;
       print [Str (NL +:+ "Error Message:")];;
       print [Str (e_msg e)];;
       print [Str (NL +:+ rule "-" +:+ NL)]).

(** Lines 270-301. *)
Definition print_mismatches (record_mode : bool) (mismatches : list mismatch)
  : M output unit :=
  print [Str (NL +:+ rule "=")];;
  (if record_mode
   then print [Str ("ALL " +:+ pretty (length mismatches)
                    +:+ " RECORD MISMATCHES (Different Results)")]
   else print [Str ("ALL " +:+ pretty (length mismatches) +:+ " SQL MISMATCHES")]);;
  print [Str (rule "=" +:+ NL)];;
  for_each (enumerate 1 mismatches)
    (λ '(idx, m), for_each (mismatch_entry_lines record_mode idx m) print).


(** Lines 26-30. *)
Definition model_type_of (a : args) : string :=
  match model_type a with
  | Some m => if str_truthy m then m else if finetune a then "ft" else "scr"
  | None => if finetune a then "ft" else "scr"
  end.

Definition gold_record_path : string := "records/ground_truth_dev.pkl".

(** Lines 70-83: the gold records, or [None] when the file is missing. *)
Definition load_gold_records (fs : gmap string file)
  : M output (option (list records)) :=
  print [Str "Looking for gold records..."];;
  print [Str ("  Path: " +:+ gold_record_path)];;
  if path_exists fs gold_record_path then
    '(gold_records, _) ← lift (pickle_load fs gold_record_path);
    print [Str ("✓ Loaded gold records from: " +:+ gold_record_path)];;
    mret (Some gold_records)
  else
    print [Str "⚠ Gold records file not found. Will compare SQL strings instead."];;
    print [Str ("  Tried: " +:+ gold_record_path +:+ NL)];;
    mret None.

(** Lines 84-103: the model's records and error messages, or [None] twice
    when neither file exists. *)
Definition load_model_records (fs : gmap string file)
    (model_record_path model_record_path_alt : string)
  : M output (option (list records) * option (list string)) :=
  print [Str "Looking for model records/error messages..."];;
  print [Str ("  Primary: " +:+ model_record_path)];;
  print [Str ("  Fallback: " +:+ model_record_path_alt)];;
  if path_exists fs model_record_path then
    '(model_records, error_msgs) ← lift (pickle_load fs model_record_path);
    print [Str ("✓ Loaded model records/errors from: " +:+ model_record_path +:+ NL)];;
    mret (Some model_records, Some error_msgs)
  else if path_exists fs model_record_path_alt then
    '(model_records, error_msgs) ← lift (pickle_load fs model_record_path_alt);
    print [Str ("✓ Loaded model records/errors from: " +:+ model_record_path_alt +:+ NL)];;
    mret (Some model_records, Some error_msgs)
  else
    print [Str "⚠ Model records file not found. Will only show SQL mismatches (not SQL errors)."];;
    print [Str ("  Tried: " +:+ model_record_path)];;
    print [Str ("  Tried: " +:+ model_record_path_alt +:+ NL)];;
    mret (None, None).

(** Lines 121-144: the mismatches, by records when both record lists are
    there and by SQL text otherwise. *)
Definition find_mismatches (nl_queries gold_sql model_sql : list string)
    (gold_records model_records : option (list records))
    (error_msgs : option (list string)) : M output (list mismatch) :=
  if truthy gold_records && truthy model_records then
    lift (record_mismatches nl_queries gold_sql model_sql
            (items gold_records) (items model_records) error_msgs)
  else
    print [Str "⚠ Records not available. Falling back to SQL string comparison."];;
    mret (sql_mismatches nl_queries gold_sql model_sql).

(** What [main] has loaded when it starts to compare. *)
Record inputs := {
  nl_queries : list string;
  gold_sql : list string;
  model_sql : list string;
  gold_records : option (list records);
  model_records : option (list records);
  error_msgs : option (list string)
}.

(** [if gold_records and model_records] *)
Definition record_mode (inp : inputs) : bool :=
  truthy (gold_records inp) && truthy (model_records inp).

(** Lines 105-301: everything after the inputs are loaded. *)
Definition report (a : args) (inp : inputs) : M output unit :=
  let mtype := model_type_of a in
  verify_lengths (nl_queries inp) (gold_sql inp) (model_sql inp)
    (gold_records inp) (model_records inp) (error_msgs inp);;
  mismatches ← find_mismatches (nl_queries inp) (gold_sql inp) (model_sql inp)
                 (gold_records inp) (model_records inp) (error_msgs inp);
  let error_queries :=
    find_error_queries (nl_queries inp) (gold_sql inp) (model_sql inp) (error_msgs inp) in
  let n := length (nl_queries inp) in
  print_totals (record_mode inp) n mismatches (error_msgs inp) error_queries;;
  let mismatches_path := "mismatches/" +:+ experiment_name a +:+ "_mismatches.txt" in
  let errors_path := "mismatches/error_" +:+ experiment_name a +:+ ".txt" in
  save_mismatches mismatches_path (record_mode inp) a mtype n mismatches;;
  when (truthy (error_msgs inp) && truthy (Some error_queries))
    (save_errors errors_path a mtype n error_queries);;
  when (truthy (error_msgs inp) && truthy (Some error_queries))
    (print_errors error_queries);;
  print_mismatches (record_mode inp) mismatches.

(** [read_queries(path)]. [utils.read_queries] is not part of these
    sources: it is taken as a function [read_queries] from the lines of a
    SQL file to the queries in it. *)
Definition read_queries_at (read_queries : list string → list string)
    (fs : gmap string file) (path : string) : result (list string) :=
  match readlines fs path with
  | Ok ls => Ok (read_queries ls)
  | Raise e => Raise e
  end.

(** Lines 32-38: the paths of the predictions and of their records. *)
Definition stem (a : args) : string :=
  "t5_" +:+ model_type_of a +:+ "_" +:+ experiment_name a +:+ "_dev".
Definition model_sql_path (a : args) : string := "results/" +:+ stem a +:+ ".sql".
Definition model_record_path (a : args) : string := "records/" +:+ stem a +:+ ".pkl".
Definition model_sql_path_alt (a : args) : string :=
  "model_output/" +:+ stem a +:+ ".sql".
Definition model_record_path_alt (a : args) : string :=
  "model_output/" +:+ stem a +:+ ".pkl".

(** Lines 70-103: what is loaded once the predictions [pred] are there. *)
Definition load_records (a : args) (fs : gmap string file)
    (nl gold pred : list string) : M output (option inputs) :=
  gold_recs ← load_gold_records fs;
  '(model_recs, errs) ←
    load_model_records fs (model_record_path a) (model_record_path_alt a);
  mret (Some {| nl_queries := nl; gold_sql := gold; model_sql := pred;
                gold_records := gold_recs; model_records := model_recs;
                error_msgs := errs |}).

(** Lines 26-103: the inputs, or [None] when no predictions are found. *)
Definition load (read_queries : list string → list string) (a : args)
    (fs : gmap string file) : M output (option inputs) :=
  nl_lines ← lift (readlines fs "data/dev.nl");
  let nl := strip <$> (nl_lines : list string) in
  gold ← lift (read_queries_at read_queries fs "data/dev.sql");
  print [Str "Looking for model predictions..."];;
  print [Str ("  Primary: " +:+ model_sql_path a)];;
  print [Str ("  Fallback: " +:+ model_sql_path_alt a)];;
  if path_exists fs (model_sql_path a) then
    pred ← lift (read_queries_at read_queries fs (model_sql_path a));
    print [Str ("✓ Loaded SQL from: " +:+ model_sql_path a)];;
    load_records a fs nl gold pred
  else if path_exists fs (model_sql_path_alt a) then
    pred ← lift (read_queries_at read_queries fs (model_sql_path_alt a));
    print [Str ("✓ Loaded SQL from: " +:+ model_sql_path_alt a)];;
    load_records a fs nl gold pred
  else
    print [Str "✗ Model predictions not found. Tried:"];;
    print [Str ("  - " +:+ model_sql_path a)];;
    print [Str ("  - " +:+ model_sql_path_alt a)];;
    mret None.

(** [main()] *)
Definition main (read_queries : list string → list string) (a : args)
    (fs : gmap string file) : M output unit :=
  loaded ← load read_queries a fs;
  match loaded with
  | Some inp => report a inp
  | None => mret tt
  end.

(** A run of [main] from nothing printed and nothing written. *)
Definition run (read_queries : list string → list string) (a : args)
    (fs : gmap string file) : output * result unit :=
  main read_queries a fs no_output.

End FindMismatches.

(** * load_data.py *)

Module LoadData.

Definition PAD_IDX : Z := 0.

Definition preprocess_nl_query (nl_query : string) : string :=
  "translate to SQL: " +:+ nl_query.

(** A one-dimensional tensor of token ids, and a two-dimensional one. *)
Abbreviation tensor1 := (list Z).
Abbreviation tensor2 := (list (list Z)).

(** What the code uses of the [T5TokenizerFast] object: the input ids of a
    text (with [max_length=512], [truncation=True]), the id of a token,
    and the ids of the unknown, padding and end-of-sequence tokens. *)
Record tokenizer := {
  encode : string → tensor1;
  convert_tokens_to_ids : string → Z;
  unk_token_id : Z;
  pad_token_id : Z;
  eos_token_id : Z
}.

(** The [for i in range(1, 100)] search of lines 38-44, over the ids left. *)
Fixpoint first_extra_id (tok : tokenizer) (ids : list nat) : Z :=
  match ids with
  | [] => pad_token_id tok
  | i :: rest =>
      let token_id := convert_tokens_to_ids tok ("<extra_id_" +:+ pretty i +:+ ">") in
      if bool_decide (token_id ≠ unk_token_id tok) then token_id
      else first_extra_id tok rest
  end.

(** Lines 36-44. *)
Definition find_bos_token_id (tok : tokenizer) : Z :=
  let bos := convert_tokens_to_ids tok "<extra_id_0>" in
  if bool_decide (bos = unk_token_id tok)
  then first_extra_id tok (seq 1 99)
  else bos.

Record T5Dataset := {
  split : string;
  tok : tokenizer;
  bos_token_id : Z;
  nl_texts : list string;
  sql_texts : option (list string);
  processed_nl_texts : list string
}.

(** [load_lines(path)] *)
Definition load_lines (fs : gmap string file) (path : string) : result (list string) :=
  lines ← readlines fs path;
  mret (strip <$> (lines : list string)).

(** [T5Dataset.__init__] *)
Definition T5Dataset_init (tk : tokenizer) (fs : gmap string file)
    (data_folder spl : string) : result T5Dataset :=
  nl ← load_lines fs (path_join data_folder (spl +:+ ".nl"));
  sql ← (if bool_decide (spl ≠ "test") then
           sql ← load_lines fs (path_join data_folder (spl +:+ ".sql"));
           if (length nl =? length sql)%nat then mret (Some sql)
           else Raise (AssertionError "NL and SQL files must have same length")
         else mret None);
  mret {| split := spl; tok := tk; bos_token_id := find_bos_token_id tk;
          nl_texts := nl; sql_texts := sql;
          processed_nl_texts := preprocess_nl_query <$> nl |}.

(** [T5Dataset.__len__] *)
Definition len (d : T5Dataset) : nat := length (nl_texts d).

(** [xs[idx]] *)
Definition index {A} (xs : list A) (idx : nat) : result A :=
  match xs !! idx with
  | Some x => Ok x
  | None => Raise IndexError
  end.

(** [T5Dataset.__getitem__]: the tuple returned, as the list of its
    components. *)
Definition getitem (d : T5Dataset) (idx : nat) : result (list tensor1) :=
  nl_text ← index (processed_nl_texts d) idx;
  let encoder_ids := encode (tok d) nl_text in
  if bool_decide (split d = "test") then
    mret [encoder_ids; [bos_token_id d]]
  else
    match sql_texts d with
    | None => Raise TypeError
    | Some sqls =>
        sql_text ← index sqls idx;
        let decoder_target_ids := encode (tok d) sql_text in
        let decoder_input_ids :=
          [bos_token_id d] ++ take (length decoder_target_ids - 1) decoder_target_ids in
        mret [encoder_ids; decoder_input_ids; decoder_target_ids; [bos_token_id d]]
    end.

(** [[f(item) for item in batch]] for an [f] that may raise. *)
Fixpoint comprehension {A B} (f : A → result B) (xs : list A) : result (list B) :=
  match xs with
  | [] => Ok []
  | x :: xs' =>
      y ← f x;
      ys ← comprehension f xs';
      mret (y :: ys)
  end.

Definition max_length (seqs : list tensor1) : nat :=
  foldr (λ s m, length s `max` m) 0 seqs.

(** [pad_sequence(seqs, batch_first=True, padding_value=pad)] *)
Definition pad_sequence (seqs : list tensor1) (pad : Z) : result tensor2 :=
  match seqs with
  | [] => Raise (RuntimeError "received an empty list of sequences")
  | _ => Ok ((λ s : tensor1, s ++ replicate (max_length seqs - length s) pad) <$> seqs)
  end.

(** [torch.stack(ts)] of one-dimensional tensors. *)
Definition stack (ts : list tensor1) : result tensor2 :=
  match ts with
  | [] => Raise (RuntimeError "stack expects a non-empty TensorList")
  | t :: rest =>
      if forallb (λ u, (length u =? length t)%nat) rest then Ok ts
      else Raise (RuntimeError "stack expects each tensor to be equal size")
  end.

(** [(encoder_ids != PAD_IDX).long()] *)
Definition mask_of (ids : tensor2) : tensor2 :=
  (λ r : tensor1, (λ x : Z, if bool_decide (x ≠ PAD_IDX) then 1%Z else 0%Z) <$> r) <$> ids.

(** [normal_collate_fn]: the tuple returned, as the list of its components. *)
Definition normal_collate_fn (batch : list (list tensor1)) : result (list tensor2) :=
  encoder_ids_list ← comprehension (λ item, index item 0) batch;
  decoder_input_ids_list ← comprehension (λ item, index item 1) batch;
  decoder_target_ids_list ← comprehension (λ item, index item 2) batch;
  initial_decoder_tokens_list ← comprehension (λ item, index item 3) batch;
  encoder_ids ← pad_sequence encoder_ids_list PAD_IDX;
  decoder_input_ids ← pad_sequence decoder_input_ids_list PAD_IDX;
  decoder_target_ids ← pad_sequence decoder_target_ids_list PAD_IDX;
  let encoder_mask := mask_of encoder_ids in
  initial_decoder_inputs ← stack initial_decoder_tokens_list;
  mret [encoder_ids; encoder_mask; decoder_input_ids; decoder_target_ids;
        initial_decoder_inputs].

(** [test_collate_fn] *)
Definition test_collate_fn (batch : list (list tensor1)) : result (list tensor2) :=
  encoder_ids_list ← comprehension (λ item, index item 0) batch;
  initial_decoder_tokens_list ← comprehension (λ item, index item 1) batch;
  encoder_ids ← pad_sequence encoder_ids_list PAD_IDX;
  let encoder_mask := mask_of encoder_ids in
  initial_decoder_inputs ← stack initial_decoder_tokens_list;
  mret [encoder_ids; encoder_mask; initial_decoder_inputs].

Inductive collate := NormalCollate | TestCollate.

Definition run_collate (c : collate) : list (list tensor1) → result (list tensor2) :=
  match c with
  | NormalCollate => normal_collate_fn
  | TestCollate => test_collate_fn
  end.

Record DataLoader := {
  dataset : T5Dataset;
  batch_size : nat;
  shuffle : bool;
  collate_fn : collate
}.

(** [get_dataloader(batch_size, split)]. [DataLoader] refuses a batch size
    that is not positive. *)
Definition get_dataloader (tk : tokenizer) (fs : gmap string file)
    (bsize : nat) (spl : string) : result DataLoader :=
  dset ← T5Dataset_init tk fs "data" spl;
  if (bsize =? 0)%nat
  then Raise (ValueError "batch_size should be a positive integer value")
  else mret {| dataset := dset; batch_size := bsize;
               shuffle := bool_decide (spl = "train");
               collate_fn := if bool_decide (spl ≠ "test") then NormalCollate
                             else TestCollate |}.

(** The batches of indices a loader draws, as torch's batch sampler forms
    them: indices are collected in [cur] (latest first) and a batch is
    given out when [bsize] are there; what is left at the end is the last
    batch. *)
Fixpoint batch_indices (bsize : nat) (cur : list nat) (order : list nat)
  : list (list nat) :=
  match order with
  | [] => match cur with [] => [] | _ => [reverse cur] end
  | i :: rest =>
      if (length (i :: cur) =? bsize)%nat
      then reverse (i :: cur) :: batch_indices bsize [] rest
      else batch_indices bsize (i :: cur) rest
  end.

(** The order in which a loader that does not shuffle visits its dataset. *)
Definition sequential (d : T5Dataset) : list nat := seq 0 (len d).

(** The batch a loader yields for a batch of indices. *)
Definition fetch (dl : DataLoader) (idxs : list nat) : result (list tensor2) :=
  samples ← comprehension (getitem (dataset dl)) idxs;
  run_collate (collate_fn dl) samples.

(** Iterating over a loader that visits its dataset in [order]: the
    batches, each computed (or raising) when the loop reaches it. *)
Definition batches (dl : DataLoader) (order : list nat) : list (result (list tensor2)) :=
  fetch dl <$> batch_indices (batch_size dl) [] order.

End LoadData.

(** * evaluate_test2.py *)

Module EvaluateTest2.
Import LoadData.

Record args := {
  experiments : option (list string);
  test_batch_size : nat;
  checkpoint_dir : string
}.

(** A model as far as this code tells models apart: how it was
    initialised, and the checkpoint whose weights it holds, if any. *)
Record model := {
  from_pretrained : bool;
  weights : option string
}.

(** The collaborators that are not part of these sources, at the interface
    [evaluate_test2.py] uses: the pretrained tokenizer, generation and
    decoding by the model, and [compute_records],
    [save_queries_and_records] and [compute_metrics] of [utils]. *)
Record externals := {
  t5_tokenizer : tokenizer;
  generate : model → tensor2 → tensor2 → Z → list string;
  compute_records : list string → list records * list string;
  save_queries_and_records :
    list string → string → string → gmap string file → result (gmap string file);
  compute_metrics :
    gmap string file → string → string → string → string
    → result (Q * Q * Q * list string)
}.

(** What a run does, in order. *)
Inductive event :=
| Printed (t : text)
| RecordsComputed (queries : list string)
| PickleDumped (path : string) (recs : list records) (errs : list string)
| ModelLoaded (m : model)
| QueriesSaved (sql : list string) (sql_path record_path : string)
| MetricsComputed (model_sql_path model_record_path : string).

Record world := {
  fs : gmap string file;
  log : list event
}.

Definition emit (e : event) : M world unit :=
  λ w, ({| fs := fs w; log := log w ++ [e] |}, Ok tt).

Definition print (t : text) : M world unit := emit (Printed t).

(** A computation that reads the file system. *)
Definition reading {A} (f : gmap string file → result A) : M world A :=
  λ w, (w, f (fs w)).

(** A computation that changes the file system. *)
Definition changing (f : gmap string file → result (gmap string file)) : M world unit :=
  λ w, match f (fs w) with
       | Ok fs' => ({| fs := fs'; log := log w |}, Ok tt)
       | Raise e => (w, Raise e)
       end.

(** [sum(1 for msg in error_msgs if msg != "")] *)
Definition count_errors (error_msgs : list string) : nat :=
  foldl (λ total msg, if bool_decide (msg ≠ "") then total + 1 else total) 0 error_msgs.

(** Line 169: the quotient is kept exact. *)
Definition error_rate (error_msgs : list string) : Q :=
  if truthy (Some error_msgs)
  then (inject_Z (Z.of_nat (count_errors error_msgs))
        / inject_Z (Z.of_nat (length error_msgs)))%Q
  else 0%Q.

(** [a, b, c = batch] *)
Definition unpack3 {A} (batch : list A) : result (A * A * A) :=
  match batch with
  | [a; b; c] => Ok (a, b, c)
  | _ => if (length batch <? 3)%nat
         then Raise (ValueError "not enough values to unpack (expected 3)")
         else Raise (ValueError "too many values to unpack (expected 3)")
  end.

(** The loop of lines 43-60 over the batches the loader yields. *)
Fixpoint inference_loop (ext : externals) (m : model) (start : Z)
    (bs : list (result (list tensor2))) (all_generated_sql : list string)
  : result (list string) :=
  match bs with
  | [] => Ok all_generated_sql
  | b :: rest =>
      batch ← b;
      '(encoder_input, encoder_mask, initial_decoder_inputs) ← unpack3 batch;
      let generated_sql := generate ext m encoder_input encoder_mask start in
      inference_loop ext m start rest (all_generated_sql ++ generated_sql)
  end.

(** [test2_inference]. The loader of the test2 split does not shuffle: it
    visits the dataset in order. *)
Definition test2_inference (ext : externals) (m : model) (test2_loader : DataLoader)
    (model_sql_path model_record_path : string) : M world (list string) :=
  let tokenizer := t5_tokenizer ext in
  let extra := convert_tokens_to_ids tokenizer "<extra_id_0>" in
  let decoder_start_token_id :=
    if bool_decide (extra = unk_token_id tokenizer) then pad_token_id tokenizer
    else extra in
  all_generated_sql ←
    lift (inference_loop ext m decoder_start_token_id
            (batches test2_loader (sequential (dataset test2_loader))) []);
  changing (save_queries_and_records ext all_generated_sql
              model_sql_path model_record_path);;
  emit (QueriesSaved all_generated_sql model_sql_path model_record_path);;
  mret all_generated_sql.

Definition model_types : list string := ["ft_experiments"; "scr_experiments"].

(** The experiments of one kind under [type_dir] (lines 74-79). *)
Definition experiments_in (fs : gmap string file) (mtype type_dir : string)
    (names : list string) : list (string * string) :=
  omap (λ exp_name,
          let exp_path := path_join type_dir exp_name in
          if isdir fs exp_path && path_exists fs (path_join exp_path "best_model.pt")
          then Some (mtype, exp_name) else None) names.

(** [find_experiments(base_dir)] *)
Definition find_experiments (fs : gmap string file) (base_dir : string)
  : result (list (string * string)) :=
  if negb (path_exists fs base_dir) then Ok []
  else
    found ← comprehension
      (λ mtype : string,
         let type_dir := path_join base_dir mtype in
         if path_exists fs type_dir
         then names ← listdir fs type_dir;
              mret (experiments_in fs mtype type_dir names)
         else mret [])
      model_types;
    mret (concat (found : list (list (string * string)))).

(** The inner loop of lines 96-101: the first kind under which the
    experiment has a best model. *)
Fixpoint first_kind (fs : gmap string file) (base_dir exp_name : string)
    (kinds : list string) : list (string * string) :=
  match kinds with
  | [] => []
  | mtype :: rest =>
      let exp_path := path_join (path_join base_dir mtype) exp_name in
      if path_exists fs (path_join exp_path "best_model.pt")
      then [(mtype, exp_name)]
      else first_kind fs base_dir exp_name rest
  end.

(** Lines 91-104. *)
Definition select_experiments (fs : gmap string file) (a : args)
  : result (list (string * string)) :=
  if truthy (experiments a)
  then Ok (default [] (experiments a) ≫= (λ exp_name,
             first_kind fs (checkpoint_dir a) exp_name model_types))
  else find_experiments fs (checkpoint_dir a).

Definition gt_sql_path : string := "data/test2.sql".
Definition gt_record_path : string := "records/ground_truth_test2.pkl".

(** Lines 119-131: the gold records of test2 are computed and stored when
    the file is not there. *)
Definition ensure_gold_records (ext : externals) : M world unit :=
  cached ← reading (λ fs, Ok (path_exists fs gt_record_path));
  when (negb cached)
    (print [Str (NL +:+ "Creating ground truth records for test2...")];;
     lines ← reading (λ fs, readlines fs gt_sql_path);
     let gt_sql_queries := strip <$> (lines : list string) in
     let '(records, error_msgs) := compute_records ext gt_sql_queries in
     emit (RecordsComputed gt_sql_queries);;
     changing (λ fs, makedirs fs "records");;
     changing (λ fs, Ok (<[gt_record_path := PickleFile records error_msgs]> fs));;
     emit (PickleDumped gt_record_path records error_msgs);;
     print [Str ("Created " +:+ gt_record_path)]).

(** [needle in s] *)
Fixpoint contains (needle s : string) : bool :=
  String.prefix needle s
  || match s with
     | EmptyString => false
     | String _ s' => contains needle s'
     end.

(** [load_model_from_checkpoint(args, best=True)] of [t5_utils]. *)
Definition load_model_from_checkpoint (finetune : bool) (ckpt_dir : string)
  : M world model :=
  let path := path_join ckpt_dir "best_model.pt" in
  found ← reading (λ fs, Ok (path_exists fs path));
  let m := {| from_pretrained := finetune;
              weights := if (found : bool) then Some path else None |} in
  (if (found : bool)
   then print [Str ("Loaded model from " +:+ path)]
   else print [Str ("Warning: Checkpoint " +:+ path
                    +:+ " not found. Using initialized model.")]);;
  emit (ModelLoaded m);;
  mret m.

(** One entry of [results]. *)
Record summary := {
  experiment : string;
  model_type : string;
  sql_em : Q;
  record_em : Q;
  record_f1 : Q;
  r_error_rate : Q
}.

(** The body of the loop of lines 135-184. *)
Definition evaluate_experiment (ext : externals) (a : args)
    (test2_loader : DataLoader) (exp : string * string) : M world summary :=
  let '(mtype, exp_name) := exp in
  print [Str (NL +:+ str_repeat "=" 80)];;
  print [Str ("Evaluating: " +:+ mtype +:+ "/" +:+ exp_name)];;
  print [Str (str_repeat "=" 80)];;
  let finetune := contains "ft" mtype in
  let model_type_short := if finetune then "ft" else "scr" in
  m ← load_model_from_checkpoint finetune
        (path_join (path_join (checkpoint_dir a) mtype) exp_name);
  let stem := "t5_" +:+ model_type_short +:+ "_" +:+ exp_name +:+ "_test2" in
  let model_sql_path := "results/" +:+ stem +:+ ".sql" in
  let model_record_path := "records/" +:+ stem +:+ ".pkl" in
  print [Str "Running inference on test2..."];;
  test2_inference ext m test2_loader model_sql_path model_record_path;;
  print [Str "Computing metrics..."];;
  '(em, rec_em, f1, error_msgs) ←
    reading (λ fs, compute_metrics ext fs gt_sql_path model_sql_path
                     gt_record_path model_record_path);
  emit (MetricsComputed model_sql_path model_record_path);;
  let rate := error_rate error_msgs in
  print [Str (NL +:+ "Results for " +:+ exp_name +:+ ":")];;
  print [Str "  SQL Exact Match: "; Dec em 4];;
  print [Str "  Record Exact Match: "; Dec rec_em 4];;
  print [Str "  Record F1: "; Dec f1 4];;
  print [Str "  SQL Error Rate: "; Dec (rate * 100) 2; Str "%"];;
  mret {| experiment := exp_name; model_type := model_type_short; sql_em := em;
          record_em := rec_em; record_f1 := f1; r_error_rate := rate |}.

(** The loop of lines 134-184, collecting [results]. *)
Fixpoint evaluate_all (ext : externals) (a : args) (test2_loader : DataLoader)
    (exps : list (string * string)) : M world (list summary) :=
  match exps with
  | [] => mret []
  | exp :: rest =>
      r ← evaluate_experiment ext a test2_loader exp;
      rs ← evaluate_all ext a test2_loader rest;
      mret (r :: rs)
  end.

(** Lines 186-194. *)
Definition print_summary (results : list summary) : M world unit :=
  print [Str (NL +:+ str_repeat "=" 80)];;
  print [Str "SUMMARY - Test2 Evaluation Results"];;
  print [Str (str_repeat "=" 80)];;
  print [Ljust 30 (Str "Experiment"); Str " "; Ljust 10 (Str "SQL EM"); Str " ";
         Ljust 12 (Str "Record EM"); Str " "; Ljust 12 (Str "Record F1"); Str " ";
         Ljust 10 (Str "Error %")];;
  print [Str (str_repeat "-" 80)];;
  for_each results
    (λ r, print [Ljust 30 (Str (experiment r)); Str " ";
                 Ljust 10 (Dec (sql_em r) 4); Str " ";
                 Ljust 12 (Dec (record_em r) 4); Str " ";
                 Ljust 12 (Dec (record_f1 r) 4); Str " ";
                 Ljust 10 (Dec (r_error_rate r * 100) 2)]);;
  print [Str (str_repeat "=" 80)].

(** [main()] *)
Definition main (ext : externals) (a : args) : M world unit :=
  print [Str "Loading test2 data..."];;
  test2_loader ← reading (λ fs, get_dataloader (t5_tokenizer ext) fs
                                   (test_batch_size a) "test2");
  exps ← reading (λ fs, select_experiments fs a);
  if negb (truthy (Some exps)) then
    print [Str "No experiments found!"]
  else
    print [Str (NL +:+ "Found " +:+ pretty (length exps) +:+ " experiment(s) to evaluate:")];;
    for_each exps (λ '(mtype, exp_name),
                     print [Str ("  - " +:+ mtype +:+ "/" +:+ exp_name)]);;
    ensure_gold_records ext;;
    results ← evaluate_all ext a test2_loader exps;
    print_summary results.

(** A run of [main] on a file system, from an empty log. *)
Definition run (ext : externals) (a : args) (files : gmap string file)
  : world * result unit :=
  main ext a {| fs := files; log := [] |}.

End EvaluateTest2.

(** * Notions the specification uses *)

Module Notions.
Import FindMismatches.

(** The indices whose predicted query failed: those with a non-empty
    error message. *)
Definition failed_at (error_msgs : list string) (i : nat) : bool :=
  match error_msgs !! i with
  | Some msg => bool_decide (msg ≠ "")
  | None => false
  end.

Definition failure_indices (error_msgs : list string) : list nat :=
  filter (λ i, failed_at error_msgs i = true) (seq 0 (length error_msgs)).



(** The indices listed in [mismatches] and in [error_queries]. *)
Definition mismatch_indices (ms : list mismatch) : list nat := m_index <$> ms.
Definition error_indices (es : list error_query) : list nat := e_index <$> es.

(** The sequences of the inputs are of one length: the three lists of
    queries, and each list of records or of error messages that was loaded
    with something in it. *)
Definition aligned (inp : inputs) : Prop :=
  length (nl_queries inp) = length (gold_sql inp)
  ∧ length (gold_sql inp) = length (model_sql inp)
  ∧ (truthy (gold_records inp) → length (items (gold_records inp)) = length (nl_queries inp))
  ∧ (truthy (model_records inp) → length (items (model_records inp)) = length (model_sql inp))
  ∧ (truthy (error_msgs inp) → length (items (error_msgs inp)) = length (model_sql inp)).



(** [o'] comes from [o] by printing more and by writing to files among
    [paths] only. *)
Definition extends (paths : string → Prop) (o o' : output) : Prop :=
  (∃ ls, stdout o' = stdout o ++ ls)
  ∧ ∀ p, ¬ paths p → written o' !! p = written o !! p.

(** A computation that only prints and only writes to files among [paths],
    whether it returns or raises. *)
Definition tame {A} (paths : string → Prop) (c : M output A) : Prop :=
  ∀ o, extends paths o (c o).1.

(** A computation that returns. *)
Definition total {A} (c : M output A) : Prop :=
  ∀ o, ∃ o' a, c o = (o', Ok a).



(** The three categories of the diagnostics report. *)
Inductive category :=
| ExactMatch
| RecordMismatch
| ExecutionError.

(** The category of an example, from the error message of the predicted
    query as the reporter reads it and from the two record sets. *)
Definition category_of (error_msg : string) (gold_rec pred_rec : records) : category :=
  if is_error_msg error_msg then ExecutionError
  else if compare gold_rec pred_rec then ExactMatch
       else RecordMismatch.

#[global] Instance aligned_dec inp : Decision (aligned inp).
Proof. unfold aligned. apply _. Defined.

End Notions.

Module CacheNotions.
Import EvaluateTest2.




(** The experiment loop and the summary that follows it (lines 133-194). *)
Definition evaluation (ext : externals) (a : args) (test2_loader : LoadData.DataLoader)
    (exps : list (string * string)) : M world unit :=
  results ← evaluate_all ext a test2_loader exps;
  print_summary results.

End CacheNotions.

(** * Sample inputs *)

Module Samples.
Import LoadData.

(** A tokenizer that gives every text two ids and knows the start token. *)
Definition toy_tokenizer : tokenizer := {|
  encode := λ s, [Z.of_nat (String.length s); 1%Z];
  convert_tokens_to_ids := λ _, 32099%Z;
  unk_token_id := 2%Z;
  pad_token_id := 0%Z;
  eos_token_id := 1%Z
|}.

(** Three test2 examples and one fine-tuned experiment with a best model. *)
Definition test2_files : gmap string file :=
  <["data/test2.nl" := TextFile ["flights to boston "; "fares"; "airlines"]]>
  (<["data/test2.sql" := TextFile ["SELECT 1"; "SELECT 2"; "SELECT 3"]]>
  (<["checkpoints/ft_experiments/base/best_model.pt" := Checkpoint]> ∅)).

(** Three dev examples: a match up to row order, a mismatch, and a
    predicted query that failed. *)
Definition dev_inputs : FindMismatches.inputs := {|
  FindMismatches.nl_queries := ["flights to boston"; "fares"; "airlines"];
  FindMismatches.gold_sql := ["SELECT 1"; "SELECT 2"; "SELECT 3"];
  FindMismatches.model_sql := ["SELECT 1"; "SELECT 5"; "SELECT x"];
  FindMismatches.gold_records :=
    Some [Some [[VInt 1]; [VInt 2]]; Some [[VInt 3]]; Some [[VInt 4]]];
  FindMismatches.model_records :=
    Some [Some [[VInt 2]; [VInt 1]]; Some [[VInt 5]]; Some []];
  FindMismatches.error_msgs := Some [""; ""; "no such column: x"]
|}.

(** Collaborators that answer every query with one row and decode every
    input to the same SQL text. *)
Definition toy_externals : EvaluateTest2.externals := {|
  EvaluateTest2.t5_tokenizer := toy_tokenizer;
  EvaluateTest2.generate := λ _ enc _ _, (λ _, "SELECT 1") <$> enc;
  EvaluateTest2.compute_records :=
    λ qs, ((λ _, Some [[VInt 1]]) <$> qs, (λ _, "") <$> qs);
  EvaluateTest2.save_queries_and_records :=
    λ sql sql_path _ fs, Ok (<[sql_path := TextFile sql]> fs);
  EvaluateTest2.compute_metrics := λ _ _ _ _ _, Ok (1%Q, 1%Q, 1%Q, [""])
|}.

Definition test2_args : EvaluateTest2.args := {|
  EvaluateTest2.experiments := Some ["base"];
  EvaluateTest2.test_batch_size := 2;
  EvaluateTest2.checkpoint_dir := "checkpoints"
|}.


Definition dev_args : FindMismatches.args := {|
  FindMismatches.experiment_name := "exp";
  FindMismatches.finetune := true;
  FindMismatches.model_type := None
|}.

(** [read_queries] as one stripped query per line. *)
Definition query_per_line (lines : list string) : list string := strip <$> lines.


(** Two dev examples and a single prediction. *)
Definition misaligned_files : gmap string file :=
  <["data/dev.nl" := TextFile ["flights to boston"; "fares"]]>
  (<["data/dev.sql" := TextFile ["SELECT 1"; "SELECT 2"]]>
  (<["results/t5_ft_exp_dev.sql" := TextFile ["SELECT 1"]]> ∅)).

(** One dev example and gold records pickled as an empty list. *)
Definition empty_records_files : gmap string file :=
  <["data/dev.nl" := TextFile ["flights to boston"]]>
  (<["data/dev.sql" := TextFile ["SELECT 1"]]>
  (<["results/t5_ft_exp_dev.sql" := TextFile ["SELECT 1"]]>
  (<["records/ground_truth_dev.pkl" := PickleFile [] []]> ∅))).



End Samples.

(** * compute_dataset_stats.py *)

Module ComputeDatasetStats.

Record stats := {
  num_examples : nat;
  mean_nl_length : Q;
  mean_sql_length : Q;
  nl_vocab_size : nat;
  sql_vocab_size : nat
}.

(** The loops of lines 36-41 and 47-50: the token count of each text is
    appended to [lengths] and its tokens are added to [vocab].
    [input_ids] is [tokenizer(text).input_ids]. *)
Fixpoint tokenize_all (input_ids : string → list Z) (texts : list string)
    (lengths : list nat) (vocab : gset Z) : list nat * gset Z :=
  match texts with
  | [] => (lengths, vocab)
  | text :: rest =>
      let tokens := input_ids text in
      tokenize_all input_ids rest (lengths ++ [length tokens])
        (vocab ∪ list_to_set tokens)
  end.

(** [sum(lengths) / len(lengths) if lengths else 0], kept exact. *)
Definition mean (lengths : list nat) : Q :=
  if truthy (Some lengths)
  then (inject_Z (Z.of_nat (sum_list lengths))
        / inject_Z (Z.of_nat (length lengths)))%Q
  else 0%Q.

(** [compute_stats(nl_queries, sql_queries, tokenizer, add_prefix)] *)
Definition compute_stats (input_ids : string → list Z)
    (nl_queries sql_queries : list string) (add_prefix : bool) : stats :=
  let nl_texts :=
    (λ nl, if add_prefix then LoadData.preprocess_nl_query nl else nl) <$> nl_queries in
  let '(nl_lengths, nl_vocab) := tokenize_all input_ids nl_texts [] ∅ in
  let '(sql_lengths, sql_vocab) := tokenize_all input_ids sql_queries [] ∅ in
  {| num_examples := length nl_queries;
     mean_nl_length := mean nl_lengths;
     mean_sql_length := mean sql_lengths;
     nl_vocab_size := size nl_vocab;
     sql_vocab_size := size sql_vocab |}.

End ComputeDatasetStats.

(** * Further notions *)

Module MoreNotions.
Import EvaluateTest2.

(** The events that end the work on an experiment: its predictions saved
    and its metrics computed. *)
Definition finishing_event (e : event) : bool :=
  match e with
  | QueriesSaved _ _ _ | MetricsComputed _ _ => true
  | _ => false
  end.

(** The paths of the two reports of [find_mismatches.py]. *)
Definition mismatches_path (a : FindMismatches.args) : string :=
  "mismatches/" +:+ FindMismatches.experiment_name a +:+ "_mismatches.txt".
Definition errors_path (a : FindMismatches.args) : string :=
  "mismatches/error_" +:+ FindMismatches.experiment_name a +:+ ".txt".

(** A file system with a test split of two questions and no SQL file. *)
Definition test_split_files : gmap string file :=
  <["data/test.nl" := TextFile ["flights to boston"; "fares"]]> ∅.

(** A file system whose test2 split has two questions and one query. *)
Definition uneven_split_files : gmap string file :=
  <["data/test2.nl" := TextFile ["flights to boston"; "fares"]]>
  (<["data/test2.sql" := TextFile ["SELECT 1"]]> ∅).

(** Checkpoints: [base] trained both ways, [small] from scratch only, and
    a directory without a best model. *)
Definition checkpoint_files : gmap string file :=
  <["checkpoints" := Directory ["ft_experiments"; "scr_experiments"]]>
  (<["checkpoints/ft_experiments" := Directory ["base"; "draft"]]>
  (<["checkpoints/scr_experiments" := Directory ["base"; "small"]]>
  (<["checkpoints/ft_experiments/base" := Directory ["best_model.pt"]]>
  (<["checkpoints/ft_experiments/draft" := Directory []]>
  (<["checkpoints/scr_experiments/base" := Directory ["best_model.pt"]]>
  (<["checkpoints/scr_experiments/small" := Directory ["best_model.pt"]]>
  (<["checkpoints/ft_experiments/base/best_model.pt" := Checkpoint]>
  (<["checkpoints/scr_experiments/base/best_model.pt" := Checkpoint]>
  (<["checkpoints/scr_experiments/small/best_model.pt" := Checkpoint]> ∅))))))))).

End MoreNotions.

(** * Properties of the record comparator *)

Module Comparator.

Lemma rec_set_spec (rec : records) : rec_set rec = spec_row_set rec.
Proof.
  destruct rec as [[|r rows]|]; reflexivity.
Qed.

Lemma compare_true (a b : records) :
  compare a b = true ↔ rec_set a = rec_set b.
Proof.
  unfold compare, records_differ.
  rewrite negb_true_iff, bool_decide_eq_false. split.
  - intros H. by destruct (decide (rec_set a = rec_set b)).
  - intros H Hne. by apply Hne.
Qed.

(** C1. The comparator reports two record sets equal exactly when their
    sets of row-tuples are equal, where [None] and the empty list both
    stand for the empty set. *)
Theorem compare_iff_row_sets (a b : records) :
  compare a b = true ↔ spec_row_set a = spec_row_set b.
Proof.
  rewrite compare_true, !rec_set_spec. done.
Qed.

Lemma rearranged_elem_of (a a' : list row) :
  rearranged a a' → ∀ r, r ∈ a' ↔ r ∈ a.
Proof.
  induction 1 as [a a' Hp|r a Hin|a b c Hab IH1 Hbc IH2]; intros x.
  - by rewrite Hp.
  - rewrite elem_of_cons. split; [intros [->|]; done | by right].
  - by rewrite IH2, IH1.
Qed.

Lemma rec_set_same_rows (a a' : list row) :
  (∀ r, r ∈ a' ↔ r ∈ a) → rec_set (Some a') = rec_set (Some a).
Proof.
  intros H. rewrite !rec_set_spec. simpl. unfold tuple.
  apply set_eq. intros x. rewrite !elem_of_list_to_set, !list_fmap_id. apply H.
Qed.

(** C6. Permuting the rows of a record set, or repeating rows it already
    has, does not change the result of comparing it with any record set;
    gold rows [(1,), (2,)] and predicted rows [(2,), (1,)] compare equal. *)
Theorem compare_rearranged (a a' : list row) (b : records) :
  rearranged a a' →
  compare (Some a') b = compare (Some a) b
  ∧ compare (Some [[VInt 1]; [VInt 2]]) (Some [[VInt 2]; [VInt 1]]) = true.
Proof.
  intros H. split.
  - unfold compare, records_differ.
    by rewrite (rec_set_same_rows a a' (rearranged_elem_of a a' H)).
  - apply compare_iff_row_sets. simpl. unfold tuple. set_solver.
Qed.

Lemma compare_rearranged_witness :
  rearranged [[VInt 1]; [VInt 2]] [[VInt 2]; [VInt 2]; [VInt 1]]
  ∧ compare (Some [[VInt 2]; [VInt 2]; [VInt 1]]) (Some [[VInt 1]; [VInt 2]; [VInt 1]])
    = compare (Some [[VInt 1]; [VInt 2]]) (Some [[VInt 1]; [VInt 2]; [VInt 1]]).
Proof.
  assert (Hr : rearranged [[VInt 1]; [VInt 2]] [[VInt 2]; [VInt 2]; [VInt 1]]).
  { eapply rearr_trans.
    - apply rearr_perm. apply Permutation_swap.
    - apply rearr_dup. apply list_elem_of_here. }
  split; [exact Hr|].
  exact (proj1 (compare_rearranged _ _ (Some [[VInt 1]; [VInt 2]; [VInt 1]]) Hr)).
Defined.

End Comparator.

(** * The test2 loader and the unpacking in [test2_inference] *)

Module Test2Batches.
Import LoadData EvaluateTest2.

Lemma bind_Ok {A B} (r : result A) (k : A → result B) (b : B) :
  r ≫= k = Ok b → ∃ a, r = Ok a ∧ k a = Ok b.
Proof. destruct r as [a|e]; [|done]. intros H. by exists a. Qed.

Lemma comprehension_ok {A B} (f : A → result B) (P : B → Prop) (xs : list A) :
  Forall (λ x, ∃ y, f x = Ok y ∧ P y) xs →
  ∃ ys, comprehension f xs = Ok ys ∧ Forall P ys ∧ length ys = length xs.
Proof.
  induction 1 as [|x xs [y [Hy HP]] _ [ys [Hys [HF Hlen]]]].
  - exists []. by repeat split.
  - exists (y :: ys). simpl. rewrite Hy. simpl. rewrite Hys. simpl.
    repeat split; [by constructor | by rewrite Hlen].
Qed.

(** A sample of a split with SQL: four tensors, the last one the start token. *)
Definition four_tuple (bos : Z) (item : list tensor1) : Prop :=
  ∃ a b c, item = [a; b; c; [bos]].

Lemma getitem_four_tuple (d : T5Dataset) (sqls : list string) (i : nat) :
  split d ≠ "test" →
  sql_texts d = Some sqls →
  length (processed_nl_texts d) = length sqls →
  i < length sqls →
  ∃ item, getitem d i = Ok item ∧ four_tuple (bos_token_id d) item.
Proof.
  intros Hsplit Hsql Hlen Hi. unfold getitem, index.
  destruct (lookup_lt_is_Some_2 (processed_nl_texts d) i) as [nl Hnl]; [lia|].
  destruct (lookup_lt_is_Some_2 sqls i) as [sql Hs]; [done|].
  rewrite Hnl. simpl. rewrite bool_decide_eq_false_2 by done.
  rewrite Hsql, Hs. simpl. eexists. split; [done|]. by eexists _, _, _.
Qed.

Lemma index_column (bos : Z) (k : nat) (samples : list (list tensor1)) :
  k < 4 →
  Forall (four_tuple bos) samples →
  ∃ col, comprehension (λ item, index item k) samples = Ok col
         ∧ length col = length samples
         ∧ (k = 3 → Forall (λ t, t = [bos]) col).
Proof.
  intros Hk HF.
  destruct (comprehension_ok (λ item, index item k)
              (λ t, k = 3 → t = [bos]) samples) as [col [Hc [HP Hlen]]].
  - eapply Forall_impl; [exact HF|]. intros item (a & b & c & ->).
    destruct k as [|[|[|[|k]]]]; try lia; simpl; eexists; (split; [done|]);
      intros; (done || lia).
  - exists col. repeat split; [done..|].
    intros ->. eapply Forall_impl; [exact HP|]. naive_solver.
Qed.

Lemma pad_sequence_ok (seqs : list tensor1) (pad : Z) :
  seqs ≠ [] → ∃ t, pad_sequence seqs pad = Ok t.
Proof. destruct seqs; [done|]. intros _. by eexists. Qed.

Lemma stack_ok (bos : Z) (ts : list tensor1) :
  ts ≠ [] → Forall (λ t, t = [bos]) ts → stack ts = Ok ts.
Proof.
  destruct ts as [|t rest]; [done|]. intros _ HF.
  apply Forall_cons in HF as [-> HF]. unfold stack.
  replace (forallb _ rest) with true; [done|].
  symmetry. apply forallb_forall. intros u Hu.
  rewrite Forall_forall in HF. rewrite (HF u); [done|]. by apply list_elem_of_In.
Qed.

Lemma normal_collate_five (bos : Z) (samples : list (list tensor1)) :
  samples ≠ [] →
  Forall (four_tuple bos) samples →
  ∃ batch, normal_collate_fn samples = Ok batch ∧ length batch = 5.
Proof.
  intros Hne HF. unfold normal_collate_fn.
  destruct (index_column bos 0 samples) as (c0 & -> & L0 & _); [lia|done|].
  destruct (index_column bos 1 samples) as (c1 & -> & L1 & _); [lia|done|].
  destruct (index_column bos 2 samples) as (c2 & -> & L2 & _); [lia|done|].
  destruct (index_column bos 3 samples) as (c3 & -> & L3 & H3); [lia|done|].
  assert (Hlen : length samples ≠ 0) by (by destruct samples).
  assert (N : ∀ c : list tensor1, length c = length samples → c ≠ []).
  { intros c Hc ->. simpl in Hc. lia. }
  simpl.
  destruct (pad_sequence_ok c0 PAD_IDX (N _ L0)) as [p0 ->].
  destruct (pad_sequence_ok c1 PAD_IDX (N _ L1)) as [p1 ->].
  destruct (pad_sequence_ok c2 PAD_IDX (N _ L2)) as [p2 ->].
  simpl. rewrite (stack_ok bos c3 (N _ L3) (H3 eq_refl)). simpl.
  by eexists.
Qed.

Lemma unpack3_five {A} (batch : list A) :
  length batch = 5 →
  unpack3 batch = Raise (ValueError "too many values to unpack (expected 3)").
Proof.
  destruct batch as [|a [|b [|c [|d [|e [|f rest]]]]]]; simpl; intros; by try lia.
Qed.

(** What [get_dataloader] builds for the test2 split. *)
Lemma get_dataloader_test2 (tk : tokenizer) (fs : gmap string file)
    (bsize : nat) (dl : DataLoader) :
  get_dataloader tk fs bsize "test2" = Ok dl →
  collate_fn dl = NormalCollate
  ∧ shuffle dl = false
  ∧ batch_size dl = bsize ∧ bsize ≠ 0
  ∧ split (dataset dl) = "test2"
  ∧ ∃ sqls, sql_texts (dataset dl) = Some sqls
            ∧ length (processed_nl_texts (dataset dl)) = length sqls
            ∧ len (dataset dl) = length sqls.
Proof.
  intros H. unfold get_dataloader in H.
  apply bind_Ok in H as (dset & Hinit & H).
  destruct (bsize =? 0)%nat eqn:Hb; [done|]. apply Nat.eqb_neq in Hb.
  injection H as <-. simpl.
  unfold T5Dataset_init in Hinit.
  apply bind_Ok in Hinit as (nl & _ & Hinit).
  apply bind_Ok in Hinit as (sql & Hsql & Hinit).
  injection Hinit as <-. simpl.
  rewrite bool_decide_eq_true_2 in Hsql by done.
  apply bind_Ok in Hsql as (sqls & _ & Hsql).
  destruct (length nl =? length sqls)%nat eqn:Hlen; [|done].
  apply Nat.eqb_eq in Hlen. injection Hsql as <-.
  repeat split; [done|]. exists sqls. unfold len. simpl.
  by rewrite length_fmap.
Qed.

Lemma fetch_test2_five (tk : tokenizer) (fs : gmap string file)
    (bsize : nat) (dl : DataLoader) (idxs : list nat) :
  get_dataloader tk fs bsize "test2" = Ok dl →
  idxs ≠ [] →
  Forall (λ i, i < len (dataset dl)) idxs →
  ∃ batch, fetch dl idxs = Ok batch ∧ length batch = 5.
Proof.
  intros Hdl Hne Hidx.
  destruct (get_dataloader_test2 _ _ _ _ Hdl)
    as (Hc & _ & _ & _ & Hsplit & sqls & Hsql & Hlen & Hn).
  unfold fetch.
  destruct (comprehension_ok (getitem (dataset dl))
              (four_tuple (bos_token_id (dataset dl))) idxs)
    as (samples & -> & HF & Hl).
  - eapply Forall_impl; [exact Hidx|]. intros i Hi. simpl in Hi.
    apply (getitem_four_tuple _ sqls); [by rewrite Hsplit|done|done|lia].
  - simpl. rewrite Hc. simpl.
    apply (normal_collate_five (bos_token_id (dataset dl))); [|done].
    intros ->. destruct idxs; [done|]. simpl in Hl. lia.
Qed.



(** The batches of indices are not empty and hold indices of the order. *)
Lemma batch_indices_spec (bsize : nat) (cur order : list nat) :
  Forall (λ b, b ≠ [] ∧ Forall (λ i, i ∈ cur ∨ i ∈ order) b)
    (batch_indices bsize cur order).
Proof.
  assert (Hrev : ∀ c (l : list nat), reverse (c :: l) ≠ []).
  { intros c l H. apply (f_equal length) in H. by rewrite length_reverse in H. }
  revert cur. induction order as [|i rest IH]; intros cur; cbn [batch_indices].
  - destruct cur as [|c cur]; [constructor|].
    repeat constructor; [apply Hrev|].
    apply Forall_forall. intros x Hx. left. by rewrite elem_of_reverse in Hx.
  - destruct (length (i :: cur) =? bsize)%nat.
    + constructor.
      * split; [apply Hrev|].
        apply Forall_forall. intros x Hx. rewrite elem_of_reverse in Hx.
        apply elem_of_cons in Hx as [->|Hx]; [right; left | by left].
      * eapply Forall_impl; [apply (IH [])|]. intros b [Hb HF]. split; [done|].
        eapply Forall_impl; [exact HF|]. intros x [Hx|Hx]; [by inversion Hx|].
        right. by right.
    + eapply Forall_impl; [apply (IH (i :: cur))|]. intros b [Hb HF].
      split; [done|]. eapply Forall_impl; [exact HF|].
      intros x [Hx|Hx].
      * apply elem_of_cons in Hx as [->|Hx]; [right; left | by left].
      * right. by right.
Qed.

Lemma batch_indices_nil (bsize : nat) (cur order : list nat) :
  batch_indices bsize cur order = [] → cur = [] ∧ order = [].
Proof.
  revert cur. induction order as [|i rest IH]; intros cur; cbn [batch_indices].
  - by destruct cur.
  - destruct (length (i :: cur) =? bsize)%nat; [done|].
    intros H. by apply IH in H as [? _].
Qed.

(** Every batch the test2 loader yields is a tuple of five tensors. *)
Lemma test2_batches_five (tk : tokenizer) (fs : gmap string file)
    (bsize : nat) (dl : DataLoader) :
  get_dataloader tk fs bsize "test2" = Ok dl →
  Forall (λ b, ∃ batch, b = Ok batch ∧ length batch = 5)
    (batches dl (sequential (dataset dl))).
Proof.
  intros Hdl. unfold batches. apply Forall_fmap.
  eapply Forall_impl; [apply batch_indices_spec|]. intros idxs [Hne HF]. simpl.
  apply (fetch_test2_five _ _ _ _ _ Hdl Hne).
  eapply Forall_impl; [exact HF|]. intros i [Hi|Hi]; [by inversion Hi|].
  unfold sequential in Hi. apply elem_of_seq in Hi. simpl. lia.
Qed.

(** With at least one test2 example, the loop of [test2_inference] raises
    at its first batch. *)
Lemma inference_loop_test2_raises (ext : externals) (m : model) (start : Z)
    (tk : tokenizer) (fs : gmap string file) (bsize : nat) (dl : DataLoader) :
  get_dataloader tk fs bsize "test2" = Ok dl →
  0 < len (dataset dl) →
  inference_loop ext m start (batches dl (sequential (dataset dl))) []
  = Raise (ValueError "too many values to unpack (expected 3)").
Proof.
  intros Hdl Hpos. pose proof (test2_batches_five _ _ _ _ Hdl) as HF.
  destruct (batches dl (sequential (dataset dl))) as [|b bs] eqn:Hb.
  - exfalso. unfold batches, sequential in Hb.
    apply fmap_nil_inv, batch_indices_nil in Hb as [_ Hb].
    destruct (len (dataset dl)); [lia|done].
  - apply Forall_cons in HF as [(batch & -> & H5) _]. simpl.
    by rewrite (unpack3_five batch H5).
Qed.

End Test2Batches.

(** * The error rate *)

Module ErrorRate.
Import FindMismatches EvaluateTest2 Notions.

Lemma count_errors_from (msgs : list string) (start : nat) :
  foldl (λ total msg, if bool_decide (msg ≠ "") then total + 1 else total) start msgs
  = start + length (filter (λ msg, msg ≠ "") msgs).
Proof.
  revert start. induction msgs as [|m msgs IH]; intros start; simpl; [lia|].
  rewrite IH, filter_cons. case_bool_decide; case_decide; simpl; (done || lia).
Qed.

Lemma count_errors_filter (msgs : list string) :
  count_errors msgs = length (filter (λ msg, msg ≠ "") msgs).
Proof. unfold count_errors. by rewrite count_errors_from. Qed.

Lemma count_errors_app (l1 l2 : list string) :
  count_errors (l1 ++ l2) = count_errors l1 + count_errors l2.
Proof. by rewrite !count_errors_filter, filter_app, length_app. Qed.






End ErrorRate.

(** * Classification of the examples by the diagnostics reporter *)

Module Classification.
Import FindMismatches EvaluateTest2 Notions.

Lemma lstrip_all_space (s : string) : all_space s = true → lstrip s = "".
Proof.
  induction s as [|c s IH]; simpl; [done|].
  intros [Hc Hs]%andb_true_iff. rewrite Hc. by apply IH.
Qed.

Lemma strip_all_space (s : string) : all_space s = true → strip s = "".
Proof. intros H. unfold strip. by rewrite (lstrip_all_space s H). Qed.

Lemma is_error_msg_strip (msg : string) :
  is_error_msg msg = true ↔ strip msg ≠ "".
Proof.
  unfold is_error_msg. destruct msg as [|c msg]; [done|]. simpl.
  by destruct (strip (String c msg)).
Qed.

Lemma error_queries_from_indices (start : nat)
    (zipped : list (string * string * string * string)) (i : nat) :
  i ∈ error_indices (error_queries_from start zipped)
  ↔ ∃ j nl gold pred msg, i = start + j
      ∧ zipped !! j = Some (nl, gold, pred, msg) ∧ is_error_msg msg = true.
Proof.
  unfold error_indices. revert start.
  induction zipped as [|[[[nl gold] pred] msg] rest IH]; intros start; simpl.
  - split; [intros H; by apply elem_of_nil in H|].
    intros (j & ? & ? & ? & ? & _ & H & _). by rewrite lookup_nil in H.
  - assert (Hrest : i ∈ e_index <$> error_queries_from (S start) rest
              ↔ ∃ j nl' gold' pred' msg', i = start + S j
                  ∧ rest !! j = Some (nl', gold', pred', msg')
                  ∧ is_error_msg msg' = true).
    { rewrite IH. split; intros (j & a & b & c & d & -> & H1 & H2);
        exists j, a, b, c, d; (split; [lia|done]). }
    destruct (is_error_msg msg) eqn:Hmsg.
    + rewrite fmap_cons, elem_of_cons, Hrest. simpl. split.
      * intros [->|(j & a & b & c & d & -> & H1 & H2)].
        -- exists 0, nl, gold, pred, msg. split; [lia|done].
        -- by exists (S j), a, b, c, d.
      * intros ([|j] & a & b & c & d & -> & H1 & H2).
        -- left. lia.
        -- right. by exists j, a, b, c, d.
    + rewrite Hrest. split.
      * intros (j & a & b & c & d & -> & H1 & H2). by exists (S j), a, b, c, d.
      * intros ([|j] & a & b & c & d & -> & H1 & H2).
        -- simpl in H1. congruence.
        -- by exists j, a, b, c, d.
Qed.

Lemma zip4_lookup {A B C D} (a : list A) (b : list B) (c : list C) (d : list D)
    (i : nat) (w : A) (x : B) (y : C) (z : D) :
  zip (zip (zip a b) c) d !! i = Some (w, x, y, z)
  ↔ a !! i = Some w ∧ b !! i = Some x ∧ c !! i = Some y ∧ d !! i = Some z.
Proof.
  split.
  - intros H.
    apply lookup_zip_with_Some in H as (p & z' & Heq & H & Hd). simplify_eq.
    apply lookup_zip_with_Some in H as (q & y' & Heq & H & Hc). simplify_eq.
    apply lookup_zip_with_Some in H as (w' & x' & Heq & Ha & Hb). simplify_eq.
    done.
  - intros (Ha & Hb & Hc & Hd).
    apply lookup_zip_with_Some. exists (w, x, y), z. split; [done|]. split; [|done].
    apply lookup_zip_with_Some. exists (w, x), y. split; [done|]. split; [|done].
    apply lookup_zip_with_Some. by exists w, x.
Qed.

Lemma items_Some {A} (xs : list A) : items (Some xs) = xs.
Proof. reflexivity. Qed.

(** In the list of error queries are the indices whose message is an
    error message. *)
Lemma error_indices_spec (nl gold pred msgs : list string) (i : nat) (msg : string) :
  length nl = length msgs → length gold = length msgs → length pred = length msgs →
  msgs !! i = Some msg →
  i ∈ error_indices (find_error_queries nl gold pred (Some msgs))
  ↔ is_error_msg msg = true.
Proof.
  intros Hnl Hgold Hpred Hi.
  assert (Hlt : i < length msgs) by (by eapply lookup_lt_Some).
  unfold find_error_queries. rewrite items_Some.
  replace (truthy (Some msgs)) with true by (by destruct msgs).
  rewrite error_queries_from_indices. split.
  - intros (j & a & b & c & d & -> & H1 & H2).
    apply zip4_lookup in H1 as (_ & _ & _ & H1). simpl in Hi. congruence.
  - intros Hmsg.
    destruct (lookup_lt_is_Some_2 nl i) as [a Ha]; [lia|].
    destruct (lookup_lt_is_Some_2 gold i) as [b Hb]; [lia|].
    destruct (lookup_lt_is_Some_2 pred i) as [c Hc]; [lia|].
    exists i, a, b, c, msg. split; [done|]. split; [|done].
    by apply zip4_lookup.
Qed.

Lemma skip_index_lookup (msgs : list string) (i : nat) (msg : string) :
  msgs !! i = Some msg → skip_index (Some msgs) i = Ok (is_error_msg msg).
Proof.
  intros Hi. unfold skip_index. rewrite items_Some.
  replace (truthy (Some msgs)) with true by (by destruct msgs).
  by rewrite Hi.
Qed.

Lemma count_errors_at (msgs : list string) (i : nat) (msg : string) :
  msgs !! i = Some msg →
  count_errors msgs
  = count_errors (take i msgs) + (if bool_decide (msg ≠ "") then 1 else 0)
    + count_errors (drop (S i) msgs).
Proof.
  intros Hi. rewrite <- (take_drop_middle msgs i msg Hi) at 1.
  rewrite (ErrorRate.count_errors_app (take i msgs)).
  change (msg :: drop (S i) msgs) with ([msg] ++ drop (S i) msgs).
  rewrite ErrorRate.count_errors_app. unfold count_errors at 2. simpl. lia.
Qed.

(** C10. The reporter lists index [i] as an execution error, and leaves it
    out of the record comparison, exactly when the message stored at [i]
    is non-empty after stripping; the evaluator's error rate counts the
    index exactly when the message is not the empty string. A message of
    whitespace only is therefore counted in the error rate and not listed
    as an execution error. *)
Theorem whitespace_message_disagreement (nl gold pred msgs : list string)
    (i : nat) (msg : string) :
  length nl = length msgs → length gold = length msgs → length pred = length msgs →
  msgs !! i = Some msg →
  (i ∈ error_indices (find_error_queries nl gold pred (Some msgs)) ↔ strip msg ≠ "")
  ∧ (skip_index (Some msgs) i = Ok true ↔ strip msg ≠ "")
  ∧ (count_errors msgs
     = count_errors (take i msgs) + (if bool_decide (msg ≠ "") then 1 else 0)
       + count_errors (drop (S i) msgs))
  ∧ (msg ≠ "" ∧ all_space msg = true →
     (count_errors msgs
      = count_errors (take i msgs) + 1 + count_errors (drop (S i) msgs))
     ∧ (i ∈ failure_indices msgs)
     ∧ (i ∉ error_indices (find_error_queries nl gold pred (Some msgs)))
     ∧ skip_index (Some msgs) i = Ok false).
Proof.
  intros Hnl Hgold Hpred Hi.
  pose proof (error_indices_spec nl gold pred msgs i msg Hnl Hgold Hpred Hi) as HE.
  pose proof (skip_index_lookup msgs i msg Hi) as HS.
  pose proof (count_errors_at msgs i msg Hi) as HC.
  repeat split.
  - intros H. by apply is_error_msg_strip, HE.
  - intros H. by apply HE, is_error_msg_strip.
  - rewrite HS. intros [= H]. by apply is_error_msg_strip.
  - intros H. rewrite HS. f_equal. by apply is_error_msg_strip.
  - done.
  - destruct H as [Hne _]. by rewrite HC, bool_decide_eq_true_2.
  - destruct H as [Hne _]. unfold failure_indices.
    apply list_elem_of_filter. split.
    + unfold failed_at. rewrite Hi. by apply bool_decide_eq_true_2.
    + apply elem_of_seq. apply lookup_lt_Some in Hi. lia.
  - destruct H as [_ Hsp]. intros Hin. apply HE, is_error_msg_strip in Hin.
    by apply Hin, strip_all_space.
  - destruct H as [_ Hsp]. rewrite HS. f_equal.
    apply not_true_is_false. intros Hm. apply is_error_msg_strip in Hm.
    by apply Hm, strip_all_space.
Qed.

Lemma whitespace_message_disagreement_witness :
  (count_errors ["no such column: x"; "   "]
   = count_errors (take 1 ["no such column: x"; "   "]) + 1
     + count_errors (drop 2 ["no such column: x"; "   "]))
  ∧ (1 ∈ failure_indices ["no such column: x"; "   "])
  ∧ (1 ∉ error_indices (find_error_queries ["q0"; "q1"] ["g0"; "g1"] ["p0"; "p1"]
                          (Some ["no such column: x"; "   "])))
  ∧ skip_index (Some ["no such column: x"; "   "]) 1 = Ok false.
Proof.
  apply (whitespace_message_disagreement ["q0"; "q1"] ["g0"; "g1"] ["p0"; "p1"]
           ["no such column: x"; "   "] 1 "   ");
    try reflexivity.
  split; [discriminate | reflexivity].
Defined.

Lemma zip5_lookup {A B C D E} (a : list A) (b : list B) (c : list C)
    (d : list D) (e : list E) (i : nat) (v : A) (w : B) (x : C) (y : D) (z : E) :
  zip5 a b c d e !! i = Some (v, w, x, y, z)
  ↔ a !! i = Some v ∧ b !! i = Some w ∧ c !! i = Some x
    ∧ d !! i = Some y ∧ e !! i = Some z.
Proof.
  unfold zip5. split.
  - intros H.
    apply lookup_zip_with_Some in H as (p & z' & Heq & H & He). simplify_eq.
    apply zip4_lookup in H as (? & ? & ? & ?). done.
  - intros (Ha & Hb & Hc & Hd & He).
    apply lookup_zip_with_Some. exists (v, w, x, y), z. split; [done|].
    split; [|done]. by apply zip4_lookup.
Qed.

(** When every index of the loop finds its error message, the loop of
    lines 125-138 returns, and lists the indices that are not skipped and
    whose records differ. *)
Lemma record_mismatches_from_spec (em : option (list string)) (start : nat)
    (zipped : list (string * string * string * records * records)) :
  (∀ j, j < length zipped → ∃ b, skip_index em (start + j) = Ok b) →
  ∃ mm, record_mismatches_from em start zipped = Ok mm
    ∧ ∀ i, i ∈ mismatch_indices mm
        ↔ ∃ j nl gold pred gold_rec pred_rec, i = start + j
            ∧ zipped !! j = Some (nl, gold, pred, gold_rec, pred_rec)
            ∧ skip_index em i = Ok false
            ∧ records_differ gold_rec pred_rec = true.
Proof.
  revert start.
  induction zipped as [|[[[[nl gold] pred] gold_rec] pred_rec] rest IH];
    intros start Hskip.
  - exists []. split; [done|]. intros i. split.
    + intros H. by apply elem_of_nil in H.
    + intros (j & ? & ? & ? & ? & ? & _ & H & _). by rewrite lookup_nil in H.
  - destruct (Hskip 0) as [b Hb]; [simpl; lia|].
    rewrite Nat.add_0_r in Hb.
    destruct (IH (S start)) as (mm & Hmm & Hspec).
    { intros j Hj. destruct (Hskip (S j)) as [b' Hb']; [simpl; lia|].
      exists b'. by rewrite <- Hb', Nat.add_succ_r. }
    assert (Hrest : ∀ i, i ∈ mismatch_indices mm
              ↔ ∃ j nl' gold' pred' gr pr, i = start + S j
                  ∧ rest !! j = Some (nl', gold', pred', gr, pr)
                  ∧ skip_index em i = Ok false ∧ records_differ gr pr = true).
    { intros i. rewrite Hspec.
      split; intros (j & a & b0 & c & d & e & -> & H1 & H2 & H3);
        exists j, a, b0, c, d, e.
      - rewrite Nat.add_succ_r. done.
      - rewrite Nat.add_succ_r in H2. by rewrite Nat.add_succ_r. }
    cbn [record_mismatches_from]. rewrite Hb. cbn [mbind result_bind ebind].
    rewrite Hmm. cbn [mbind result_bind ebind].
    assert (Hkeep : ∀ i, i ∈ mismatch_indices mm
              → ∃ j nl' gold' pred' gr pr, i = start + j
                  ∧ (((nl, gold, pred, gold_rec, pred_rec) :: rest) !! j
                     = Some (nl', gold', pred', gr, pr))
                  ∧ skip_index em i = Ok false ∧ records_differ gr pr = true).
    { intros i (j & a & b0 & c & d & e & -> & H1 & H2 & H3)%Hrest.
      by exists (S j), a, b0, c, d, e. }
    destruct b; [|destruct (records_differ gold_rec pred_rec) eqn:Hdiff].
    + exists mm. split; [done|]. intros i. split; [apply Hkeep|].
      intros ([|j] & a & b0 & c & d & e & -> & H1 & H2 & H3).
      * rewrite Nat.add_0_r in H2. congruence.
      * apply Hrest. by exists j, a, b0, c, d, e.
    + eexists. split; [done|]. intros i. unfold mismatch_indices.
      rewrite fmap_cons, elem_of_cons. simpl. split.
      * intros [->|Hin]; [|by apply Hkeep].
        exists 0, nl, gold, pred, gold_rec, pred_rec.
        rewrite Nat.add_0_r. done.
      * intros ([|j] & a & b0 & c & d & e & -> & H1 & H2 & H3).
        -- left. lia.
        -- right. apply Hrest. by exists j, a, b0, c, d, e.
    + exists mm. split; [done|]. intros i. split; [apply Hkeep|].
      intros ([|j] & a & b0 & c & d & e & -> & H1 & H2 & H3).
      * simpl in H1. congruence.
      * apply Hrest. by exists j, a, b0, c, d, e.
Qed.

(** In record mode with error messages, on aligned inputs: the record
    comparison returns, and an index is listed as a mismatch exactly when
    its message is no error message and its records differ. *)
Lemma mismatch_indices_spec (inp : inputs) :
  truthy (gold_records inp) = true →
  truthy (model_records inp) = true →
  truthy (error_msgs inp) = true →
  aligned inp →
  ∃ mm, record_mismatches (nl_queries inp) (gold_sql inp) (model_sql inp)
          (items (gold_records inp)) (items (model_records inp)) (error_msgs inp)
        = Ok mm
    ∧ ∀ i g p msg,
        items (gold_records inp) !! i = Some g →
        items (model_records inp) !! i = Some p →
        items (error_msgs inp) !! i = Some msg →
        i ∈ mismatch_indices mm
        ↔ is_error_msg msg = false ∧ records_differ g p = true.
Proof.
  intros Hg Hm He (L1 & L2 & L3 & L4 & L5).
  rewrite Hg in L3. rewrite Hm in L4. rewrite He in L5.
  specialize (L3 I). specialize (L4 I). specialize (L5 I).
  destruct (error_msgs inp) as [msgs|] eqn:Hmsgs; [|done].
  rewrite items_Some in L5.
  unfold record_mismatches.
  destruct (record_mismatches_from_spec (Some msgs) 0
              (zip5 (nl_queries inp) (gold_sql inp) (model_sql inp)
                 (items (gold_records inp)) (items (model_records inp))))
    as (mm & Hmm & Hspec).
  { intros j Hj. unfold zip5 in Hj. rewrite !length_zip_with in Hj.
    destruct (lookup_lt_is_Some_2 msgs j) as [msg Hmsg]; [lia|].
    exists (is_error_msg msg). by apply skip_index_lookup. }
  exists mm. split; [done|]. intros i g p msg Hgi Hpi Hmi.
  rewrite items_Some in Hmi.
  rewrite Hspec. split.
  - intros (j & a & b & c & d & e & -> & H1 & H2 & H3). simpl in *.
    apply zip5_lookup in H1 as (_ & _ & _ & Hd & He').
    rewrite (skip_index_lookup msgs j msg Hmi) in H2.
    simplify_eq. split; [congruence|done].
  - intros [Hmsg Hdiff].
    assert (Hi : i < length msgs) by (by eapply lookup_lt_Some).
    destruct (lookup_lt_is_Some_2 (nl_queries inp) i) as [a Ha]; [lia|].
    destruct (lookup_lt_is_Some_2 (gold_sql inp) i) as [b Hb]; [lia|].
    destruct (lookup_lt_is_Some_2 (model_sql inp) i) as [c Hc]; [lia|].
    exists i, a, b, c, g, p. split; [done|]. split; [by apply zip5_lookup|].
    split; [|done]. rewrite (skip_index_lookup msgs i msg Hmi). by f_equal.
Qed.

(** C7. With gold records, model records and error messages all loaded,
    every index falls into exactly one of three categories: it is listed
    as an execution error, or listed as a record mismatch, or in neither
    list with equal record sets; no index is in both lists. *)
Theorem three_way_partition (inp : inputs) (i : nat) :
  truthy (gold_records inp) = true →
  truthy (model_records inp) = true →
  truthy (error_msgs inp) = true →
  aligned inp →
  i < length (nl_queries inp) →
  ∃ mm g p msg,
    record_mismatches (nl_queries inp) (gold_sql inp) (model_sql inp)
      (items (gold_records inp)) (items (model_records inp)) (error_msgs inp)
    = Ok mm
    ∧ items (gold_records inp) !! i = Some g
    ∧ items (model_records inp) !! i = Some p
    ∧ items (error_msgs inp) !! i = Some msg
    ∧ (i ∈ error_indices (find_error_queries (nl_queries inp) (gold_sql inp)
                            (model_sql inp) (error_msgs inp))
       ↔ category_of msg g p = ExecutionError)
    ∧ (i ∈ mismatch_indices mm ↔ category_of msg g p = RecordMismatch)
    ∧ ((i ∉ error_indices (find_error_queries (nl_queries inp) (gold_sql inp)
                             (model_sql inp) (error_msgs inp)))
       ∧ (i ∉ mismatch_indices mm)
       ↔ category_of msg g p = ExactMatch)
    ∧ ¬ (i ∈ error_indices (find_error_queries (nl_queries inp) (gold_sql inp)
                              (model_sql inp) (error_msgs inp))
         ∧ i ∈ mismatch_indices mm).
Proof.
  intros Hg Hm He Hal Hi.
  destruct (mismatch_indices_spec inp Hg Hm He Hal) as (mm & Hmm & Hspec).
  destruct Hal as (L1 & L2 & L3 & L4 & L5).
  rewrite Hg in L3. rewrite Hm in L4. rewrite He in L5.
  specialize (L3 I). specialize (L4 I). specialize (L5 I).
  destruct (lookup_lt_is_Some_2 (items (gold_records inp)) i) as [g Hgi]; [lia|].
  destruct (lookup_lt_is_Some_2 (items (model_records inp)) i) as [p Hpi]; [lia|].
  destruct (lookup_lt_is_Some_2 (items (error_msgs inp)) i) as [msg Hmi]; [lia|].
  exists mm, g, p, msg. do 4 (split; [done|]).
  specialize (Hspec i g p msg Hgi Hpi Hmi).
  assert (HE : i ∈ error_indices (find_error_queries (nl_queries inp)
                 (gold_sql inp) (model_sql inp) (error_msgs inp))
               ↔ is_error_msg msg = true).
  { destruct (error_msgs inp) as [msgs|]; [|done].
    rewrite items_Some in Hmi, L5.
    apply error_indices_spec; (done || lia). }
  rewrite HE, Hspec. unfold category_of, compare.
  destruct (is_error_msg msg), (records_differ g p); simpl; intuition congruence.
Qed.

Lemma three_way_partition_witness :
  ∃ mm g p msg,
    record_mismatches ["flights to boston"; "fares"; "airlines"]
      ["SELECT 1"; "SELECT 2"; "SELECT 3"] ["SELECT 1"; "SELECT 5"; "SELECT x"]
      [Some [[VInt 1]; [VInt 2]]; Some [[VInt 3]]; Some [[VInt 4]]]
      [Some [[VInt 2]; [VInt 1]]; Some [[VInt 5]]; Some []]
      (Some [""; ""; "no such column: x"])
    = Ok mm
    ∧ [Some [[VInt 1]; [VInt 2]]; Some [[VInt 3]]; Some [[VInt 4]]] !! 1 = Some g
    ∧ [Some [[VInt 2]; [VInt 1]]; Some [[VInt 5]]; Some []] !! 1 = Some p
    ∧ [""; ""; "no such column: x"] !! 1 = Some msg
    ∧ (1 ∈ mismatch_indices mm ↔ category_of msg g p = RecordMismatch).
Proof.
  destruct (three_way_partition Samples.dev_inputs 1)
    as (mm & g & p & msg & H1 & H2 & H3 & H4 & _ & H5 & _).
  - reflexivity.
  - reflexivity.
  - reflexivity.
  - repeat split; intros; reflexivity.
  - simpl. lia.
  - exists mm, g, p, msg. repeat split; (exact H1 || exact H2 || exact H3
      || exact H4 || apply H5).
Defined.

End Classification.

(** * The bounded preview of the records of a mismatch *)

Module Preview.
Import FindMismatches Notions.












End Preview.

(** * Runs of the diagnostics reporter *)

Module Runs.
Import FindMismatches Notions.

Lemma bind_run {A B} (m : M output A) (k : A → M output B) (o : output) :
  (m ≫= k) o = match m o with
               | (o', Ok a) => k a o'
               | (o', Raise e) => (o', Raise e)
               end.
Proof. reflexivity. Qed.

Lemma bind_ok {A B} (m : M output A) (k : A → M output B) (o o' : output) (a : A) :
  m o = (o', Ok a) → (m ≫= k) o = k a o'.
Proof. intros H. by rewrite bind_run, H. Qed.

Lemma bind_raise {A B} (m : M output A) (k : A → M output B) (o o' : output)
    (e : exn) :
  m o = (o', Raise e) → (m ≫= k) o = (o', Raise e).
Proof. intros H. by rewrite bind_run, H. Qed.

(** ** Computations that only print and write *)

Lemma extends_refl (paths : string → Prop) (o : output) : extends paths o o.
Proof. split; [exists []; by rewrite app_nil_r | done]. Qed.

Lemma extends_trans (paths : string → Prop) (o1 o2 o3 : output) :
  extends paths o1 o2 → extends paths o2 o3 → extends paths o1 o3.
Proof.
  intros [[l1 H1] F1] [[l2 H2] F2]. split.
  - exists (l1 ++ l2). by rewrite H2, H1, app_assoc.
  - intros p Hp. by rewrite F2, F1.
Qed.

Lemma tame_ret {A} paths (a : A) : tame paths (mret a : M output A).
Proof. intros o. apply extends_refl. Qed.

Lemma tame_lift {A} paths (r : result A) : tame paths (lift r : M output A).
Proof. intros o. apply extends_refl. Qed.

Lemma tame_raise {A} paths (e : exn) : tame paths (raise e : M output A).
Proof. intros o. apply extends_refl. Qed.

Lemma tame_print paths (t : text) : tame paths (print t).
Proof. intros o. split; [by exists [t] | done]. Qed.

Lemma tame_open_w (paths : string → Prop) (path : string) :
  paths path → tame paths (open_w path).
Proof.
  intros Hp o. split; [exists []; simpl; by rewrite app_nil_r|].
  intros p Hnp. simpl. apply lookup_insert_ne. by intros ->.
Qed.

Lemma tame_fwrite (paths : string → Prop) (path : string) (t : text) :
  paths path → tame paths (fwrite path t).
Proof.
  intros Hp o. split; [exists []; simpl; by rewrite app_nil_r|].
  intros p Hnp. simpl. apply lookup_insert_ne. by intros ->.
Qed.

Lemma tame_bind {A B} paths (m : M output A) (k : A → M output B) :
  tame paths m → (∀ a, tame paths (k a)) → tame paths (m ≫= k).
Proof.
  intros Hm Hk o. rewrite bind_run. specialize (Hm o).
  destruct (m o) as [o' [a|e]]; simpl in *; [|done].
  eapply extends_trans; [exact Hm | apply Hk].
Qed.

Lemma tame_for_each {A} paths (xs : list A) (body : A → M output unit) :
  (∀ x, tame paths (body x)) → tame paths (for_each xs body).
Proof.
  intros Hb. induction xs as [|x xs IH]; simpl; [apply tame_ret|].
  apply tame_bind; [apply Hb | by intros _].
Qed.

Lemma tame_when paths (cond : bool) (m : M output unit) :
  tame paths m → tame paths (when cond m).
Proof. intros Hm. destruct cond; [done | apply tame_ret]. Qed.

Lemma tame_assert paths (cond : bool) (msg : string) :
  tame paths (assert cond msg : M output unit).
Proof. destruct cond; [apply tame_ret | apply tame_raise]. Qed.

(** ** Computations that return *)









(** ** Loading *)

Ltac tame_auto :=
  repeat first
    [ apply tame_ret | apply tame_print | apply tame_lift | apply tame_raise
    | apply tame_assert | apply tame_when
    | apply tame_open_w; reflexivity | apply tame_fwrite; reflexivity
    | apply tame_for_each; intros ?
    | apply tame_bind; [|intros ?]
    | match goal with
      | |- tame _ (match ?x with _ => _ end) => destruct x
      end ].

Lemma tame_load_gold_records (fs : gmap string file) :
  tame (λ _, False) (load_gold_records fs).
Proof. unfold load_gold_records. tame_auto. Qed.

Lemma tame_load_model_records (fs : gmap string file) (p1 p2 : string) :
  tame (λ _, False) (load_model_records fs p1 p2).
Proof. unfold load_model_records. tame_auto. Qed.

Lemma tame_load (read_queries : list string → list string) (a : args)
    (fs : gmap string file) :
  tame (λ _, False) (load read_queries a fs).
Proof.
  unfold load, load_records.
  repeat first [ apply tame_load_gold_records | apply tame_load_model_records
               | progress tame_auto ].
Qed.

(** Loading writes no file. *)
Lemma load_writes_nothing (read_queries : list string → list string) (a : args)
    (fs : gmap string file) (o o' : output) (r : result (option inputs)) :
  load read_queries a fs o = (o', r) → written o' = written o.
Proof.
  intros H. destruct (tame_load read_queries a fs o) as [_ Hw].
  rewrite H in Hw. simpl in Hw. apply map_eq. intros p. apply Hw. tauto.
Qed.

(** ** The length checks *)


(** The conditions of the four assertions, as the code tests them. *)
Lemma aligned_checks (inp : inputs) :
  aligned inp
  ↔ ((length (nl_queries inp) =? length (gold_sql inp))%nat
     && (length (gold_sql inp) =? length (model_sql inp))%nat) = true
    ∧ (truthy (gold_records inp) = true →
       (length (items (gold_records inp)) =? length (nl_queries inp))%nat = true)
    ∧ (truthy (model_records inp) = true →
       (length (items (model_records inp)) =? length (model_sql inp))%nat = true)
    ∧ (truthy (error_msgs inp) = true →
       (length (items (error_msgs inp)) =? length (model_sql inp))%nat = true).
Proof.
  unfold aligned. rewrite andb_true_iff, !Nat.eqb_eq, !Is_true_true.
  tauto.
Qed.

Lemma verify_lengths_fail (inp : inputs) (o : output) :
  ¬ aligned inp →
  ∃ msg,
    verify_lengths (nl_queries inp) (gold_sql inp) (model_sql inp)
      (gold_records inp) (model_records inp) (error_msgs inp) o
    = (o, Raise (AssertionError msg))
    ∧ String.prefix "Mismatch: " msg = true.
Proof.
  rewrite aligned_checks. intros Hna. unfold verify_lengths.
  destruct ((length (nl_queries inp) =? length (gold_sql inp))%nat
            && (length (gold_sql inp) =? length (model_sql inp))%nat) eqn:C1;
    [|by eexists].
  destruct (truthy (gold_records inp)) eqn:T2;
    [destruct (length (items (gold_records inp))
               =? length (nl_queries inp))%nat eqn:C2; [|by eexists]|];
    (destruct (truthy (model_records inp)) eqn:T3;
       [destruct (length (items (model_records inp))
                  =? length (model_sql inp))%nat eqn:C3; [|by eexists]|]);
    (destruct (truthy (error_msgs inp)) eqn:T4;
       [destruct (length (items (error_msgs inp))
                  =? length (model_sql inp))%nat eqn:C4; [|by eexists]|]);
    exfalso; apply Hna; repeat split; (done || congruence).
Qed.

Lemma run_loaded (read_queries : list string → list string) (a : args)
    (fs : gmap string file) (o1 : output) (inp : inputs) :
  load read_queries a fs no_output = (o1, Ok (Some inp)) →
  run read_queries a fs = report a inp o1.
Proof. intros H. unfold run, main. by rewrite (bind_ok _ _ _ _ _ H). Qed.

(** C2 (amended). Once the inputs are loaded, if the numbers of NL
    queries, gold queries and predicted queries are not all equal, or a
    loaded list of records or of error messages that is not empty differs
    in length from them, the run raises an assertion error whose message
    starts with "Mismatch: ", with nothing printed after the loading and no
    file written; a run that returns had sequences of one length. *)
Theorem length_mismatch_fails_fast (read_queries : list string → list string)
    (a : args) (fs : gmap string file) (o1 : output) (inp : inputs) :
  load read_queries a fs no_output = (o1, Ok (Some inp)) →
  (¬ aligned inp →
   ∃ msg, run read_queries a fs = (o1, Raise (AssertionError msg))
          ∧ String.prefix "Mismatch: " msg = true
          ∧ written o1 = ∅)
  ∧ (∀ o2, run read_queries a fs = (o2, Ok tt) → aligned inp).
Proof.
  intros Hload. rewrite (run_loaded _ _ _ _ _ Hload).
  assert (Hfail : ¬ aligned inp →
            ∃ msg, report a inp o1 = (o1, Raise (AssertionError msg))
                   ∧ String.prefix "Mismatch: " msg = true).
  { intros Hna. destruct (verify_lengths_fail inp o1 Hna) as (msg & Hv & Hp).
    exists msg. split; [|done]. unfold report.
    by rewrite (bind_raise _ _ _ _ _ Hv). }
  split.
  - intros Hna. destruct (Hfail Hna) as (msg & Hr & Hp).
    exists msg. repeat split; [done..|].
    by rewrite (load_writes_nothing _ _ _ _ _ _ Hload).
  - intros o2 Hrun. destruct (decide (aligned inp)) as [|Hna]; [done|].
    destruct (Hfail Hna) as (msg & Hr & _). congruence.
Qed.

Lemma length_mismatch_fails_fast_witness :
  ∃ o1 msg,
    run Samples.query_per_line Samples.dev_args Samples.misaligned_files
    = (o1, Raise (AssertionError msg))
    ∧ String.prefix "Mismatch: " msg = true
    ∧ written o1 = ∅.
Proof.
  destruct (load Samples.query_per_line Samples.dev_args Samples.misaligned_files
              no_output) as [o1 r] eqn:Hload.
  assert (Hr : ∃ inp, r = Ok (Some inp) ∧ length (model_sql inp) = 1
                 ∧ length (gold_sql inp) = 2).
  { vm_compute in Hload. injection Hload as _ <-. eexists. by repeat split. }
  destruct Hr as (inp & -> & Hm & Hg).
  exists o1.
  apply (length_mismatch_fails_fast _ _ _ _ inp Hload).
  intros (_ & H2 & _). rewrite Hm, Hg in H2. discriminate H2.
Defined.

(** C2 as stated fails: gold records loaded as an empty list differ in length
    from the single query, and the run returns. *)
Lemma empty_records_list_accepted :
  ∃ o1 inp o2,
    load Samples.query_per_line Samples.dev_args Samples.empty_records_files
      no_output = (o1, Ok (Some inp))
    ∧ gold_records inp = Some []
    ∧ length (nl_queries inp) = 1
    ∧ run Samples.query_per_line Samples.dev_args Samples.empty_records_files
      = (o2, Ok tt).
Proof.
  eexists _, _, _. split; [vm_compute; reflexivity|].
  split; [reflexivity|]. split; [reflexivity|]. vm_compute. reflexivity.
Qed.

End Runs.

(** * The fallback to SQL-string comparison *)

Module Fallback.
Import FindMismatches Notions Runs.






(** ** The comparison of SQL texts *)




(** ** What is printed and written *)
















End Fallback.

(** * The gold-record cache of the test2 evaluator *)

Module Cache.
Import LoadData EvaluateTest2 CacheNotions.

Lemma step_run {A B} (m : M world A) (k : A → M world B) (w : world) :
  (m ≫= k) w = match m w with
               | (w', Ok a) => k a w'
               | (w', Raise e) => (w', Raise e)
               end.
Proof. reflexivity. Qed.


(** ** Events of a computation *)












(** ** The caching step *)

(** With the cache file there, the step changes nothing. *)
Lemma ensure_cached (ext : externals) (w : world) :
  path_exists (fs w) gt_record_path = true →
  ensure_gold_records ext w = (w, Ok tt).
Proof.
  intros H. unfold ensure_gold_records. rewrite step_run.
  unfold reading. by rewrite H.
Qed.

(** Without it, the gold queries are run once and the pair is stored. *)
Lemma ensure_missing (ext : externals) (w : world) (lines : list string)
    (files' : gmap string file) :
  path_exists (fs w) gt_record_path = false →
  readlines (fs w) gt_sql_path = Ok lines →
  makedirs (fs w) "records" = Ok files' →
  ensure_gold_records ext w
  = ({| fs := <[gt_record_path :=
                  PickleFile (compute_records ext (strip <$> lines)).1
                             (compute_records ext (strip <$> lines)).2]> files';
        log := log w
               ++ [Printed [Str (NL +:+ "Creating ground truth records for test2...")];
                   RecordsComputed (strip <$> lines);
                   PickleDumped gt_record_path
                     (compute_records ext (strip <$> lines)).1
                     (compute_records ext (strip <$> lines)).2;
                   Printed [Str ("Created " +:+ gt_record_path)]] |},
     Ok tt).
Proof.
  intros Hc Hl Hd. unfold ensure_gold_records. rewrite step_run.
  unfold reading at 1. rewrite Hc. cbn [negb when].
  rewrite step_run. unfold print at 1, emit at 1.
  rewrite step_run. unfold reading. cbn [fs]. rewrite Hl.
  destruct (compute_records ext (strip <$> lines)) as [recs errs].
  rewrite step_run. unfold emit at 1.
  rewrite step_run. unfold changing at 1. cbn [fs log]. rewrite Hd.
  rewrite step_run. unfold changing at 1. cbn [fs log].
  rewrite step_run. unfold emit at 1. cbn [fs log].
  unfold print, emit. cbn [fs log fst snd].
  by rewrite <- !app_assoc.
Qed.






End Cache.

(** * Batching and padding in load_data.py *)

Module Batching.
Import LoadData.

Lemma batch_indices_concat (bsize : nat) (cur order : list nat) :
  concat (batch_indices bsize cur order) = reverse cur ++ order.
Proof.
  revert cur. induction order as [|i rest IH]; intros cur; cbn [batch_indices].
  - destruct cur as [|c cur]; [done|]. simpl. by rewrite app_nil_r.
  - destruct (length (i :: cur) =? bsize)%nat.
    + simpl. rewrite IH, reverse_cons, reverse_nil. simpl.
      by rewrite <- app_assoc.
    + rewrite IH, reverse_cons. by rewrite <- app_assoc.
Qed.

Lemma batch_indices_sizes (bsize : nat) (cur order : list nat) :
  length cur < bsize →
  Forall (λ b, 0 < length b ≤ bsize) (batch_indices bsize cur order).
Proof.
  revert cur. induction order as [|i rest IH]; intros cur Hcur;
    cbn [batch_indices].
  - destruct cur as [|c cur]; [constructor|].
    repeat constructor; rewrite length_reverse; simpl in *; lia.
  - destruct (length (i :: cur) =? bsize)%nat eqn:Hb.
    + apply Nat.eqb_eq in Hb. constructor.
      * rewrite length_reverse. lia.
      * apply IH. simpl. lia.
    + apply Nat.eqb_neq in Hb. apply IH. simpl in *. lia.
Qed.

(** The batches of a loader split the order of visit: put one after the
    other they give back the order, no batch is empty and none is larger
    than the batch size. *)
Theorem batches_partition_order (bsize : nat) (order : list nat) :
  0 < bsize →
  concat (batch_indices bsize [] order) = order
  ∧ Forall (λ b, 0 < length b ≤ bsize) (batch_indices bsize [] order).
Proof.
  intros Hb. split.
  - by rewrite batch_indices_concat.
  - by apply batch_indices_sizes.
Qed.

Lemma batches_partition_order_witness :
  concat (batch_indices 2 [] [0; 1; 2; 3; 4]) = [0; 1; 2; 3; 4]
  ∧ Forall (λ b, 0 < length b ≤ 2) (batch_indices 2 [] [0; 1; 2; 3; 4]).
Proof. apply (batches_partition_order 2 [0; 1; 2; 3; 4]). lia. Defined.

Lemma max_length_ge (seqs : list tensor1) (s : tensor1) :
  s ∈ seqs → length s ≤ max_length seqs.
Proof.
  unfold max_length. induction seqs as [|t seqs IH]; intros Hs;
    [by apply elem_of_nil in Hs|].
  apply elem_of_cons in Hs as [->|Hs]; simpl; [lia|].
  specialize (IH Hs). lia.
Qed.

(** [pad_sequence] gives one row per sequence, all of the length of the
    longest: each row is its sequence followed by padding only. *)
Theorem pad_sequence_rows (seqs : list tensor1) (pad : Z) (t : tensor2)
    (i : nat) (s : tensor1) :
  pad_sequence seqs pad = Ok t →
  seqs !! i = Some s →
  length t = length seqs
  ∧ t !! i = Some (s ++ replicate (max_length seqs - length s) pad)
  ∧ length (s ++ replicate (max_length seqs - length s) pad) = max_length seqs.
Proof.
  intros Hp Hi. unfold pad_sequence in Hp.
  assert (Ht : t = (λ s : tensor1, s ++ replicate (max_length seqs - length s) pad)
                     <$> seqs).
  { destruct seqs; [done|]. by injection Hp as <-. }
  subst t. split; [by rewrite length_fmap|]. split.
  - by rewrite list_lookup_fmap, Hi.
  - rewrite length_app, length_replicate.
    assert (length s ≤ max_length seqs); [|lia].
    apply max_length_ge. by eapply list_elem_of_lookup_2.
Qed.

Lemma pad_sequence_rows_witness :
  length [[5%Z; 6%Z; 0%Z]; [7%Z; 8%Z; 9%Z]] = 2
  ∧ [[5%Z; 6%Z; 0%Z]; [7%Z; 8%Z; 9%Z]] !! 0
    = Some ([5%Z; 6%Z] ++ replicate (max_length [[5%Z; 6%Z]; [7%Z; 8%Z; 9%Z]] - 2) 0%Z)
  ∧ length ([5%Z; 6%Z] ++ replicate (max_length [[5%Z; 6%Z]; [7%Z; 8%Z; 9%Z]] - 2) 0%Z)
    = max_length [[5%Z; 6%Z]; [7%Z; 8%Z; 9%Z]].
Proof.
  apply (pad_sequence_rows [[5%Z; 6%Z]; [7%Z; 8%Z; 9%Z]] 0%Z
           [[5%Z; 6%Z; 0%Z]; [7%Z; 8%Z; 9%Z]] 0 [5%Z; 6%Z]); reflexivity.
Defined.

End Batching.

(** * The dataset of load_data.py *)

Module Dataset.
Import LoadData EvaluateTest2.

Lemma pad_sequence_Ok (seqs : list tensor1) (pad : Z) (t : tensor2) :
  pad_sequence seqs pad = Ok t →
  t = (λ s : tensor1, s ++ replicate (max_length seqs - length s) pad) <$> seqs.
Proof. unfold pad_sequence. destruct seqs; [done|]. by intros [= <-]. Qed.

Lemma mask_row_tokens (s : tensor1) :
  Forall (λ x, x ≠ PAD_IDX) s →
  (λ x : Z, if bool_decide (x ≠ PAD_IDX) then 1%Z else 0%Z) <$> s
  = replicate (length s) 1%Z.
Proof.
  induction 1 as [|x s Hx _ IH]; [done|].
  rewrite fmap_cons, IH. simpl. by rewrite bool_decide_eq_true_2.
Qed.

(** For sequences without the padding id, the encoder mask of the padded
    batch has a 1 at the positions of each sequence and a 0 at the
    positions that were padded. *)
Theorem encoder_mask_marks_tokens (seqs : list tensor1) (ids : tensor2)
    (i : nat) (s : tensor1) :
  pad_sequence seqs PAD_IDX = Ok ids →
  seqs !! i = Some s →
  Forall (λ x, x ≠ PAD_IDX) s →
  mask_of ids !! i
  = Some (replicate (length s) 1%Z ++ replicate (max_length seqs - length s) 0%Z).
Proof.
  intros Hp Hi Hs. rewrite (pad_sequence_Ok _ _ _ Hp). unfold mask_of.
  rewrite !list_lookup_fmap, Hi. simpl. f_equal.
  rewrite fmap_app, (mask_row_tokens s Hs), fmap_replicate. done.
Qed.

Lemma encoder_mask_marks_tokens_witness :
  mask_of [[5%Z; 6%Z; 0%Z]; [7%Z; 8%Z; 9%Z]] !! 0
  = Some (replicate 2 1%Z
          ++ replicate (max_length [[5%Z; 6%Z]; [7%Z; 8%Z; 9%Z]] - 2) 0%Z).
Proof.
  apply (encoder_mask_marks_tokens [[5%Z; 6%Z]; [7%Z; 8%Z; 9%Z]]
           [[5%Z; 6%Z; 0%Z]; [7%Z; 8%Z; 9%Z]] 0 [5%Z; 6%Z]);
    [reflexivity | reflexivity | by repeat constructor].
Defined.

(** A sample of a split with SQL carries the decoder input shifted by one
    against the target: the start token, then the target without its last
    token; position [i + 1] of the input holds token [i] of the target. *)
Theorem decoder_input_shifted (d : T5Dataset) (idx : nat) (item : list tensor1) :
  split d ≠ "test" →
  getitem d idx = Ok item →
  ∃ enc din tgt,
    item = [enc; din; tgt; [bos_token_id d]]
    ∧ din !! 0 = Some (bos_token_id d)
    ∧ length din = Nat.max 1 (length tgt)
    ∧ ∀ i x, S i < length tgt → tgt !! i = Some x → din !! S i = Some x.
Proof.
  intros Hsplit H. unfold getitem in H.
  destruct (index (processed_nl_texts d) idx) as [nl|e]; [|done]. simpl in H.
  rewrite bool_decide_eq_false_2 in H by done.
  destruct (sql_texts d) as [sqls|]; [|done].
  destruct (index sqls idx) as [sql|e]; [|done]. simpl in H.
  injection H as <-. eexists _, _, _. split; [reflexivity|].
  split; [done|]. split.
  - simpl. rewrite length_take. lia.
  - intros i x Hi Hx. simpl. rewrite lookup_take_lt by lia. done.
Qed.

Lemma decoder_input_shifted_witness :
  ∃ enc din tgt,
    [[8%Z; 1%Z]; [32099%Z; 8%Z]; [8%Z; 1%Z]; [32099%Z]]
    = [enc; din; tgt; [32099%Z]]
    ∧ din !! 0 = Some 32099%Z
    ∧ length din = Nat.max 1 (length tgt)
    ∧ ∀ i x, S i < length tgt → tgt !! i = Some x → din !! S i = Some x.
Proof.
  apply (decoder_input_shifted
           {| split := "dev"; tok := Samples.toy_tokenizer; bos_token_id := 32099%Z;
              nl_texts := ["fares"]; sql_texts := Some ["SELECT 1"];
              processed_nl_texts := ["SELECT 1"] |} 0).
  - discriminate.
  - reflexivity.
Defined.

(** A split with SQL whose two files differ in their number of lines is
    refused when the dataset is built. *)
Theorem dataset_length_mismatch (tk : tokenizer) (fs : gmap string file)
    (folder spl : string) (nl sql : list string) :
  spl ≠ "test" →
  readlines fs (path_join folder (spl +:+ ".nl")) = Ok nl →
  readlines fs (path_join folder (spl +:+ ".sql")) = Ok sql →
  length nl ≠ length sql →
  T5Dataset_init tk fs folder spl
  = Raise (AssertionError "NL and SQL files must have same length").
Proof.
  intros Hspl Hnl Hsql Hlen. unfold T5Dataset_init, load_lines.
  rewrite Hnl. simpl. rewrite bool_decide_eq_true_2 by done.
  rewrite Hsql. simpl. rewrite !length_fmap.
  apply Nat.eqb_neq in Hlen. by rewrite Hlen.
Qed.

Lemma dataset_length_mismatch_witness :
  T5Dataset_init Samples.toy_tokenizer MoreNotions.uneven_split_files "data" "test2"
  = Raise (AssertionError "NL and SQL files must have same length").
Proof.
  apply (dataset_length_mismatch Samples.toy_tokenizer
           MoreNotions.uneven_split_files "data" "test2"
           ["flights to boston"; "fares"] ["SELECT 1"]);
    [discriminate | reflexivity | reflexivity | simpl; lia].
Defined.

End Dataset.

(** * The test split and the start token *)

Module TestSplit.
Import LoadData EvaluateTest2.

(** A sample of the test split: the encoder ids and the start token. *)
Definition two_tuple (bos : Z) (item : list tensor1) : Prop :=
  ∃ a, item = [a; [bos]].

Lemma get_dataloader_test (tk : tokenizer) (fs : gmap string file)
    (bsize : nat) (dl : DataLoader) :
  get_dataloader tk fs bsize "test" = Ok dl →
  collate_fn dl = TestCollate
  ∧ split (dataset dl) = "test"
  ∧ sql_texts (dataset dl) = None
  ∧ len (dataset dl) = length (processed_nl_texts (dataset dl)).
Proof.
  intros H. unfold get_dataloader in H.
  apply Test2Batches.bind_Ok in H as (dset & Hinit & H).
  destruct (bsize =? 0)%nat; [done|]. injection H as <-. simpl.
  unfold T5Dataset_init in Hinit.
  apply Test2Batches.bind_Ok in Hinit as (nl & _ & Hinit).
  rewrite bool_decide_eq_false_2 in Hinit by (by intros H').
  injection Hinit as <-. unfold len. simpl. by rewrite length_fmap.
Qed.

Lemma getitem_two_tuple (d : T5Dataset) (i : nat) :
  split d = "test" →
  i < length (processed_nl_texts d) →
  ∃ item, getitem d i = Ok item ∧ two_tuple (bos_token_id d) item.
Proof.
  intros Hsplit Hi. unfold getitem, index.
  destruct (lookup_lt_is_Some_2 (processed_nl_texts d) i) as [nl Hnl]; [done|].
  rewrite Hnl. simpl. rewrite bool_decide_eq_true_2 by done.
  eexists. split; [done|]. by eexists.
Qed.

Lemma test_columns (bos : Z) (samples : list (list tensor1)) :
  Forall (two_tuple bos) samples →
  ∃ c0 c1,
    comprehension (λ item, index item 0) samples = Ok c0
    ∧ comprehension (λ item, index item 1) samples = Ok c1
    ∧ length c0 = length samples
    ∧ c1 = replicate (length samples) [bos].
Proof.
  induction 1 as [|item samples [a ->] _ (c0 & c1 & H0 & H1 & L0 & L1)].
  - by exists [], [].
  - exists (a :: c0), ([bos] :: c1). simpl. rewrite H0, H1. simpl.
    repeat split; [by rewrite L0 | by rewrite L1].
Qed.

(** For the split "test" the loader collates with [test_collate_fn]: a
    non-empty batch is a tuple of three tensors, which the three-way
    unpacking takes apart; the third holds the start token once per
    sample. *)
Theorem test_batches_unpack (tk : tokenizer) (fs : gmap string file)
    (bsize : nat) (dl : DataLoader) (idxs : list nat) :
  get_dataloader tk fs bsize "test" = Ok dl →
  idxs ≠ [] →
  Forall (λ i, i < len (dataset dl)) idxs →
  ∃ ids mask,
    fetch dl idxs
    = Ok [ids; mask; replicate (length idxs) [bos_token_id (dataset dl)]]
    ∧ unpack3 [ids; mask; replicate (length idxs) [bos_token_id (dataset dl)]]
      = Ok (ids, mask, replicate (length idxs) [bos_token_id (dataset dl)])
    ∧ length ids = length idxs
    ∧ mask = mask_of ids.
Proof.
  intros Hdl Hne Hidx.
  destruct (get_dataloader_test _ _ _ _ Hdl) as (Hc & Hsplit & _ & Hlen).
  unfold fetch.
  destruct (Test2Batches.comprehension_ok (getitem (dataset dl))
              (two_tuple (bos_token_id (dataset dl))) idxs)
    as (samples & -> & HF & Hl).
  { eapply Forall_impl; [exact Hidx|]. intros i Hi. simpl in Hi.
    apply getitem_two_tuple; [done|lia]. }
  simpl. rewrite Hc. simpl. unfold test_collate_fn.
  destruct (test_columns _ samples HF) as (c0 & c1 & -> & -> & L0 & ->).
  simpl.
  assert (Hs : samples ≠ []).
  { intros ->. destruct idxs; [done|]. simpl in Hl. lia. }
  assert (Hc0 : c0 ≠ []).
  { intros ->. destruct samples; [done|]. simpl in L0. lia. }
  destruct (Test2Batches.pad_sequence_ok c0 PAD_IDX Hc0) as [ids Hids].
  rewrite Hids. simpl.
  rewrite (Test2Batches.stack_ok (bos_token_id (dataset dl))).
  - simpl. rewrite Hl. exists ids, (mask_of ids). repeat split.
    rewrite (Dataset.pad_sequence_Ok _ _ _ Hids), length_fmap. lia.
  - destruct samples; [done|]. done.
  - apply Forall_replicate. done.
Qed.

Lemma test_batches_unpack_witness :
  ∃ dl ids mask,
    get_dataloader Samples.toy_tokenizer MoreNotions.test_split_files 2 "test" = Ok dl
    ∧ fetch dl [0; 1] = Ok [ids; mask; replicate 2 [bos_token_id (dataset dl)]]
    ∧ unpack3 [ids; mask; replicate 2 [bos_token_id (dataset dl)]]
      = Ok (ids, mask, replicate 2 [bos_token_id (dataset dl)]).
Proof.
  destruct (get_dataloader Samples.toy_tokenizer MoreNotions.test_split_files 2 "test")
    as [dl|e] eqn:Hdl; [|by vm_compute in Hdl].
  exists dl.
  destruct (test_batches_unpack _ _ _ dl [0; 1] Hdl) as (ids & mask & H1 & H2 & _).
  - discriminate.
  - assert (Hlen : len (dataset dl) = 2).
    { vm_compute in Hdl. by injection Hdl as <-. }
    rewrite Hlen. repeat constructor.
  - exists ids, mask. by repeat split.
Defined.

Lemma first_extra_id_known (tk : tokenizer) (ids : list nat) :
  first_extra_id tk ids ≠ unk_token_id tk
  ∨ first_extra_id tk ids = pad_token_id tk.
Proof.
  induction ids as [|i ids IH]; simpl; [by right|].
  case_bool_decide; [by left | exact IH].
Qed.

(** The start token of the dataset is never the unknown token, unless no
    extra id is known and the padding token is taken in its place. *)
Theorem bos_token_not_unknown (tk : tokenizer) :
  find_bos_token_id tk ≠ unk_token_id tk
  ∨ find_bos_token_id tk = pad_token_id tk.
Proof.
  unfold find_bos_token_id. case_bool_decide as H.
  - apply first_extra_id_known.
  - by left.
Qed.

End TestSplit.

(** * Experiments of the test2 evaluator *)

Module Experiments.
Import LoadData EvaluateTest2 CacheNotions MoreNotions.

(** The error rate lies between 0 and 1. *)
Theorem error_rate_bounds (error_msgs : list string) :
  (0 <= error_rate error_msgs)%Q ∧ (error_rate error_msgs <= 1)%Q.
Proof.
  unfold error_rate. destruct error_msgs as [|m msgs]; [done|].
  cbn [truthy].
  pose proof (length_filter (λ msg : string, msg ≠ "") (m :: msgs)) as Hle.
  rewrite <- ErrorRate.count_errors_filter in Hle.
  set (c := count_errors (m :: msgs)) in *.
  set (n := length (m :: msgs)) in *.
  assert (Hn : (0 < inject_Z (Z.of_nat n))%Q).
  { change 0%Q with (inject_Z 0). rewrite <- Zlt_Qlt. subst n. simpl. lia. }
  split.
  - apply Qle_shift_div_l; [done|]. rewrite Qmult_0_l.
    change 0%Q with (inject_Z 0). rewrite <- Zle_Qle. lia.
  - apply Qle_shift_div_r; [done|]. rewrite Qmult_1_l.
    rewrite <- Zle_Qle. lia.
Qed.

(** Every experiment that [find_experiments] returns is a directory of
    one of the two kinds that holds a best model; a base directory that
    does not exist gives no experiment. *)
Theorem find_experiments_sound (fs : gmap string file) (base_dir : string)
    (exps : list (string * string)) (mtype exp_name : string) :
  find_experiments fs base_dir = Ok exps →
  (mtype, exp_name) ∈ exps →
  path_exists fs base_dir = true
  ∧ mtype ∈ model_types
  ∧ (∃ names, listdir fs (path_join base_dir mtype) = Ok names ∧ exp_name ∈ names)
  ∧ isdir fs (path_join (path_join base_dir mtype) exp_name) = true
  ∧ path_exists fs (path_join (path_join (path_join base_dir mtype) exp_name)
                      "best_model.pt") = true.
Proof.
  unfold find_experiments. intros H Hin.
  destruct (path_exists fs base_dir) eqn:Hbase; simpl in H.
  2: { injection H as <-. by apply elem_of_nil in Hin. }
  split; [done|].
  assert (Hkind : ∀ kind found,
            (if path_exists fs (path_join base_dir kind)
             then names ← listdir fs (path_join base_dir kind);
                  mret (experiments_in fs kind (path_join base_dir kind) names)
             else mret []) = Ok found →
            (mtype, exp_name) ∈ found →
            mtype = kind
            ∧ (∃ names, listdir fs (path_join base_dir mtype) = Ok names
                        ∧ exp_name ∈ names)
            ∧ isdir fs (path_join (path_join base_dir mtype) exp_name) = true
            ∧ path_exists fs (path_join (path_join (path_join base_dir mtype)
                                           exp_name) "best_model.pt") = true).
  { intros kind found Hf Hm.
    destruct (path_exists fs (path_join base_dir kind)).
    2: { injection Hf as <-. by apply elem_of_nil in Hm. }
    destruct (listdir fs (path_join base_dir kind)) as [names|e] eqn:Hl; [|done].
    injection Hf as <-. unfold experiments_in in Hm.
    apply list_elem_of_omap in Hm as (name & Hname & Hsome).
    destruct (isdir fs (path_join (path_join base_dir kind) name)) eqn:Hd;
      [|done].
    destruct (path_exists fs (path_join (path_join (path_join base_dir kind) name)
                                "best_model.pt")) eqn:Hb; [|done].
    injection Hsome as <- <-. repeat split; [|done..]. by exists names. }
  unfold model_types in *. cbn [comprehension] in H.
  apply Test2Batches.bind_Ok in H as (found & Hcomp & H). injection H as <-.
  apply Test2Batches.bind_Ok in Hcomp as (ft & Hft & Hcomp).
  apply Test2Batches.bind_Ok in Hcomp as (rest & Hrest & Hcomp).
  injection Hcomp as <-.
  apply Test2Batches.bind_Ok in Hrest as (scr & Hscr & Hrest).
  injection Hrest as <-.
  simpl in Hin. rewrite app_nil_r in Hin.
  apply elem_of_app in Hin as [Hin|Hin].
  - destruct (Hkind "ft_experiments" _ Hft Hin) as (-> & ? & ? & ?).
    repeat split; [|done..]. apply list_elem_of_here.
  - destruct (Hkind "scr_experiments" _ Hscr Hin) as (-> & ? & ? & ?).
    repeat split; [|done..]. apply list_elem_of_further, list_elem_of_here.
Qed.

Lemma find_experiments_sound_witness :
  path_exists checkpoint_files "checkpoints" = true
  ∧ "scr_experiments" ∈ model_types
  ∧ (∃ names, listdir checkpoint_files (path_join "checkpoints" "scr_experiments")
              = Ok names ∧ "small" ∈ names)
  ∧ isdir checkpoint_files
      (path_join (path_join "checkpoints" "scr_experiments") "small") = true
  ∧ path_exists checkpoint_files
      (path_join (path_join (path_join "checkpoints" "scr_experiments") "small")
         "best_model.pt") = true.
Proof.
  apply (find_experiments_sound checkpoint_files "checkpoints"
           [("ft_experiments", "base"); ("scr_experiments", "base");
            ("scr_experiments", "small")]).
  - vm_compute. reflexivity.
  - apply list_elem_of_further, list_elem_of_further, list_elem_of_here.
Defined.

End Experiments.

(** * The experiment loop on the test2 loader *)

Module ExperimentLoop.
Import LoadData EvaluateTest2 CacheNotions MoreNotions.

Lemma evaluate_experiment_raises (ext : externals) (a : args) (tk : tokenizer)
    (files : gmap string file) (bsize : nat) (dl : DataLoader)
    (exp : string * string) (w1 : world) :
  get_dataloader tk files bsize "test2" = Ok dl →
  0 < len (dataset dl) →
  ∃ w2 es,
    evaluate_experiment ext a dl exp w1
    = (w2, Raise (ValueError "too many values to unpack (expected 3)"))
    ∧ fs w2 = fs w1
    ∧ log w2 = log w1 ++ es
    ∧ Forall (λ e, finishing_event e = false) es.
Proof.
  intros Hdl Hpos. destruct exp as [mtype exp_name].
  pose proof (λ m start,
    Test2Batches.inference_loop_test2_raises ext m start tk files bsize dl Hdl Hpos)
    as Hloop.
  unfold evaluate_experiment, load_model_from_checkpoint, test2_inference.
  do 3 (rewrite Cache.step_run; unfold print at 1, emit at 1).
  do 2 rewrite Cache.step_run. unfold reading at 1. cbn [fs log].
  destruct (path_exists (fs w1) _);
    repeat first
      [ rewrite Cache.step_run
      | progress (unfold print, emit, lift; cbn [fs log mret M_ret ret]) ];
    rewrite Hloop;
    (eexists _, _; split; [reflexivity|]; cbn [fs log];
     split; [reflexivity|]; split; [by rewrite <- !app_assoc|];
     by repeat constructor).
Qed.

(** With at least one test2 example, the experiment loop stops in its
    first experiment at the unpacking of the first batch: it raises
    [ValueError], leaves the files as they were, and neither saves
    predictions nor computes metrics. *)
Theorem experiments_stop_at_unpacking (ext : externals) (a : args)
    (tk : tokenizer) (files : gmap string file) (bsize : nat) (dl : DataLoader)
    (exps : list (string * string)) (w1 : world) :
  get_dataloader tk files bsize "test2" = Ok dl →
  0 < len (dataset dl) →
  exps ≠ [] →
  ∃ w2 es,
    evaluation ext a dl exps w1
    = (w2, Raise (ValueError "too many values to unpack (expected 3)"))
    ∧ fs w2 = fs w1
    ∧ log w2 = log w1 ++ es
    ∧ Forall (λ e, finishing_event e = false) es.
Proof.
  intros Hdl Hpos Hne. destruct exps as [|exp rest]; [done|].
  destruct (evaluate_experiment_raises ext a tk files bsize dl exp w1 Hdl Hpos)
    as (w2 & es & Hev & Hfs & Hlog & HF).
  exists w2, es. split; [|done].
  unfold evaluation. cbn [evaluate_all]. by rewrite !Cache.step_run, Hev.
Qed.

Lemma experiments_stop_at_unpacking_witness :
  ∃ dl w2 es,
    evaluation Samples.toy_externals Samples.test2_args dl
      [("ft_experiments", "base")] {| fs := Samples.test2_files; log := [] |}
    = (w2, Raise (ValueError "too many values to unpack (expected 3)"))
    ∧ fs w2 = Samples.test2_files
    ∧ log w2 = es
    ∧ Forall (λ e, finishing_event e = false) es.
Proof.
  destruct (get_dataloader Samples.toy_tokenizer Samples.test2_files 2 "test2")
    as [dl|e] eqn:Hdl; [|by vm_compute in Hdl].
  exists dl.
  apply (experiments_stop_at_unpacking Samples.toy_externals Samples.test2_args
           Samples.toy_tokenizer Samples.test2_files 2 dl
           [("ft_experiments", "base")] {| fs := Samples.test2_files; log := [] |} Hdl).
  - assert (Hlen : len (dataset dl) = 3).
    { vm_compute in Hdl. by injection Hdl as <-. }
    rewrite Hlen. lia.
  - discriminate.
Defined.

(** The caching step can be repeated: once it has returned, running it
    again changes nothing. *)
Theorem ensure_gold_records_once (ext : externals) (w w' : world) :
  ensure_gold_records ext w = (w', Ok tt) →
  ensure_gold_records ext w' = (w', Ok tt).
Proof.
  intros H. destruct (path_exists (fs w) gt_record_path) eqn:Hc.
  - rewrite (Cache.ensure_cached ext w Hc) in H. injection H as <-.
    by apply Cache.ensure_cached.
  - destruct (readlines (fs w) gt_sql_path) as [lines|e] eqn:Hl.
    + destruct (makedirs (fs w) "records") as [files'|e] eqn:Hd.
      * rewrite (Cache.ensure_missing ext w lines files' Hc Hl Hd) in H.
        injection H as <-. apply Cache.ensure_cached. cbn [fs].
        unfold path_exists. rewrite lookup_insert_eq. by apply bool_decide_eq_true_2.
      * exfalso. revert H. unfold ensure_gold_records.
        rewrite Cache.step_run. unfold reading at 1. rewrite Hc. cbn [negb when].
        rewrite Cache.step_run. unfold print at 1, emit at 1.
        rewrite Cache.step_run. unfold reading. cbn [fs]. rewrite Hl.
        destruct (compute_records ext (strip <$> lines)) as [recs errs].
        rewrite Cache.step_run. unfold emit at 1.
        rewrite Cache.step_run. unfold changing at 1. cbn [fs log].
        by rewrite Hd.
    + exfalso. revert H. unfold ensure_gold_records.
      rewrite Cache.step_run. unfold reading at 1. rewrite Hc. cbn [negb when].
      rewrite Cache.step_run. unfold print at 1, emit at 1.
      rewrite Cache.step_run. unfold reading. cbn [fs]. by rewrite Hl.
Qed.

Lemma ensure_gold_records_once_witness :
  ∃ w',
    ensure_gold_records Samples.toy_externals
      {| fs := Samples.test2_files; log := [] |} = (w', Ok tt)
    ∧ ensure_gold_records Samples.toy_externals w' = (w', Ok tt).
Proof.
  destruct (ensure_gold_records Samples.toy_externals
              {| fs := Samples.test2_files; log := [] |}) as [w' r] eqn:He.
  assert (Hr : r = Ok tt).
  { vm_compute in He. by injection He as _ <-. }
  subst r. exists w'. split; [reflexivity|].
  by apply (ensure_gold_records_once Samples.toy_externals
              {| fs := Samples.test2_files; log := [] |}).
Defined.

(** Without the cache and without a readable gold SQL file, the caching
    step raises what the reading raised: no query is run and no file is
    written. *)
Theorem ensure_gold_records_unreadable (ext : externals) (w : world) (e : exn) :
  path_exists (fs w) gt_record_path = false →
  readlines (fs w) gt_sql_path = Raise e →
  ensure_gold_records ext w
  = ({| fs := fs w;
        log := log w
               ++ [Printed [Str (NL +:+ "Creating ground truth records for test2...")]] |},
     Raise e).
Proof.
  intros Hc Hl. unfold ensure_gold_records.
  rewrite Cache.step_run. unfold reading at 1. rewrite Hc. cbn [negb when].
  rewrite Cache.step_run. unfold print at 1, emit at 1.
  rewrite Cache.step_run. unfold reading. cbn [fs]. by rewrite Hl.
Qed.

Lemma ensure_gold_records_unreadable_witness :
  ensure_gold_records Samples.toy_externals {| fs := ∅; log := [] |}
  = ({| fs := ∅;
        log := [Printed [Str (NL +:+ "Creating ground truth records for test2...")]] |},
     Raise (FileNotFoundError "data/test2.sql")).
Proof.
  apply (ensure_gold_records_unreadable Samples.toy_externals
           {| fs := ∅; log := [] |} (FileNotFoundError "data/test2.sql"));
    reflexivity.
Defined.

End ExperimentLoop.
